(** * Sketch preprocessing pipeline demo: [preprocess_server.py]

    A shallow embedding of the pipeline function [run_pipeline], of its
    encoder wrapper [img_to_base64] and of the HTTP handler ([do_GET],
    [do_POST]), followed by the properties of the pipeline and of its
    transport.

    Conventions.
    - Python [str] and [bytes] literals are UTF-8 byte strings ([string]);
      raw request and image bytes are [list byte].
    - Python dictionaries are finite maps [gmap string PyVal].
    - A raster (numpy array of [uint8]) is a [Mat]: its shape and the flat
      list of its elements, each a [Z] in the range 0..255.
    - The calls into OpenCV ([cv2.*]) are the fields of the class [Cv2]; the
      calls into the Python standard library that the handler makes
      ([json], [base64.b64decode], [int], [str]) are the fields of the class
      [PyStd].  Neither library is part of the repository.  What
      [cv2.imdecode] and the handler's library calls raise is kept, as a
      [Result]; the other calls into OpenCV are taken to return a value. *)

From Stdlib Require Import QArith Qround.
From Stdlib.Strings Require Import Ascii String Byte.
From stdpp Require Import gmap strings list fin_maps pretty.

Set Warnings "-register-all".

(* ===================================================================== *)
(** ** Python values *)
(* ===================================================================== *)

(** The values that cross the JSON boundary. *)
Inductive PyVal :=
| VNone
| VBool (b : bool)
| VInt (z : Z)
| VStr (s : string)
| VList (l : list PyVal)
| VDict (d : gmap string PyVal).

(** The exceptions the handler can let escape; [CvError] is [cv2.error]. *)
Inductive PyExc :=
| ValueError
| JSONDecodeError
| KeyError (k : string)
| TypeError
| BinasciiError
| CvError.

Inductive Result (A : Type) :=
| Ok (a : A)
| Raise (e : PyExc).
Arguments Ok {A} a.
Arguments Raise {A} e.

(** [len(s)] of a [str] held as UTF-8: the bytes that do not continue a
    code point. *)
Definition is_utf8_continuation (c : ascii) : bool :=
  (Z.land (Z.of_N (N_of_ascii c)) 192 =? 128)%Z.

Fixpoint utf8_len (s : string) : Z :=
  match s with
  | EmptyString => 0
  | String c s' => ((if is_utf8_continuation c then 0 else 1) + utf8_len s')%Z
  end.

(** [len(v)] *)
Definition py_len (v : PyVal) : Result Z :=
  match v with
  | VStr s => Ok (utf8_len s)
  | VList l => Ok (Z.of_nat (length l))
  | VDict d => Ok (Z.of_nat (size d))
  | _ => Raise TypeError
  end.

(** [v[k]] for a string key [k] *)
Definition subscript (v : PyVal) (k : string) : Result PyVal :=
  match v with
  | VDict d =>
      match d !! k with
      | Some x => Ok x
      | None => Raise (KeyError k)
      end
  | _ => Raise TypeError
  end.

(* ===================================================================== *)
(** ** Rasters *)
(* ===================================================================== *)

Record Mat := {
  rows : N;
  cols : N;
  channels : N;
  data : list Z
}.

(** [img.shape[:2]] *)
Definition shape2 (img : Mat) : N * N := (rows img, cols img).

(** [img.size]: the number of elements of the array. *)
Definition size_of (img : Mat) : Z := Z.of_nat (length (data img)).

(** [np.sum(img > t)]: the number of elements above [t]. *)
Definition np_sum_gt (img : Mat) (t : Z) : Z :=
  Z.of_nat (length (filter (λ p, (t <? p)%Z = true) (data img))).

(** Bitwise complement of one [uint8] element. *)
Definition not_u8 (p : Z) : Z := Z.land (Z.lnot p) 255.

(** [cv2.bitwise_not(img)] *)
Definition bitwise_not (img : Mat) : Mat :=
  {| rows := rows img; cols := cols img; channels := channels img;
     data := map not_u8 (data img) |}.

(** [np.sum(..) / img.size]: numpy true division.  A zero size gives nan
    ([None]); otherwise the quotient is the exact fraction.  The float64
    quotient of two integers below 2^53 is correctly rounded, and 0.5 is a
    float, so comparing the float with 0.5 and comparing the fraction with
    1/2 give the same answer for every raster of fewer than 2^53 elements. *)
Definition np_true_divide (a b : Z) : option Q :=
  if (b =? 0)%Z then None else Some (Qmake a (Z.to_pos b)).

(** [x < c] for a quotient [x] that may be nan: nan compares false. *)
Definition np_lt (x : option Q) (c : Q) : bool :=
  match x with
  | None => false
  | Some q => negb (Qle_bool c q)
  end.

(* ===================================================================== *)
(** ** The OpenCV interface *)
(* ===================================================================== *)

Inductive ImreadModes := IMREAD_GRAYSCALE | IMREAD_COLOR | IMREAD_UNCHANGED.
Inductive ColorConversionCodes := COLOR_BGR2GRAY | COLOR_GRAY2BGR.
Inductive AdaptiveThresholdTypes :=
  ADAPTIVE_THRESH_MEAN_C | ADAPTIVE_THRESH_GAUSSIAN_C.
Inductive ThresholdTypes := THRESH_BINARY | THRESH_BINARY_INV.
Inductive MorphShapes := MORPH_RECT | MORPH_CROSS | MORPH_ELLIPSE.
Inductive MorphTypes :=
  MORPH_ERODE | MORPH_DILATE | MORPH_OPEN | MORPH_CLOSE.

(** The object [cv2.createCLAHE] returns: it records its two settings. *)
Record CLAHE := {
  clipLimit : Q;
  tileGridSize : Z * Z
}.

Definition createCLAHE (clip : Q) (grid : Z * Z) : CLAHE :=
  {| clipLimit := clip; tileGridSize := grid |}.

(** The library calls of [run_pipeline], with the arguments in the order of
    the OpenCV signatures.  [imdecode] answers [Raise] where the library
    raises (it does on an empty buffer), [Ok None] where it returns [None]
    and [Ok (Some img)] where it returns a raster; [imencode] answers [None]
    where the library returns a false [ok]. *)
Class Cv2 := {
  imdecode : list byte → ImreadModes → Result (option Mat);
  imencode : string → Mat → option (list byte);
  cvtColor : Mat → ColorConversionCodes → Mat;
  bilateralFilter : Mat → Z → Z → Z → Mat;
  clahe_apply : CLAHE → Mat → Mat;
  adaptiveThreshold :
    Mat → Z → AdaptiveThresholdTypes → ThresholdTypes → Z → Z → Mat;
  getStructuringElement : MorphShapes → Z * Z → Mat;
  morphologyEx : Mat → MorphTypes → Mat → Z → Mat;
  medianBlur : Mat → Z → Mat;
  convertScaleAbs : Mat → Q → Q → Mat;
  Canny : Mat → Z → Z → Mat
}.

(** Two documented facts about the library: decoding with [IMREAD_COLOR]
    always gives a 3-channel raster, and so does [COLOR_GRAY2BGR]. *)
Class Cv2Laws (cv : Cv2) : Prop := {
  imdecode_color_channels :
    ∀ buf img, imdecode buf IMREAD_COLOR = Ok (Some img) →
               channels img = 3%N;
  cvtColor_gray2bgr_channels :
    ∀ img, channels (cvtColor img COLOR_GRAY2BGR) = 3%N
}.

(* ===================================================================== *)
(** ** [base64.b64encode] *)
(* ===================================================================== *)

Definition b64_alphabet : string :=
  "ABCDEFGHIJKLMNOPQRSTUVWXYZabcdefghijklmnopqrstuvwxyz0123456789+/".

Definition b64_pad : ascii := "="%char.

Definition b64_char (n : N) : ascii :=
  match String.get (N.to_nat n) b64_alphabet with
  | Some c => c
  | None => b64_pad
  end.

(** Three bytes give four characters; a final group of one or two bytes is
    padded with [=]. *)
Fixpoint b64encode (buf : list byte) : string :=
  match buf with
  | [] => EmptyString
  | [a] =>
      let x := Byte.to_N a in
      String (b64_char (x / 4))
        (String (b64_char (x mod 4 * 16))
           (String b64_pad (String b64_pad EmptyString)))
  | [a; b] =>
      let x := Byte.to_N a in
      let y := Byte.to_N b in
      String (b64_char (x / 4))
        (String (b64_char (x mod 4 * 16 + y / 16))
           (String (b64_char (y mod 16 * 4))
              (String b64_pad EmptyString)))
  | a :: b :: c :: rest =>
      let x := Byte.to_N a in
      let y := Byte.to_N b in
      let z := Byte.to_N c in
      String (b64_char (x / 4))
        (String (b64_char (x mod 4 * 16 + y / 16))
           (String (b64_char (y mod 16 * 4 + z / 64))
              (String (b64_char (z mod 64)) (b64encode rest))))
  end%N.

(* ===================================================================== *)
(** ** The pipeline *)
(* ===================================================================== *)

(** [np.frombuffer(img_bytes, np.uint8)]: the same bytes, viewed as an
    array. *)
Definition np_frombuffer (img_bytes : list byte) : list byte := img_bytes.

(** One entry of the step list: the dictionary literal
    [{"name": .., "description": .., "image": ..}]. *)
Definition step_dict (name description image : string) : PyVal :=
  VDict {[ "name" := VStr name;
           "description" := VStr description;
           "image" := VStr image ]}.

(** The inversion check of step 6 (the lines from [white_ratio = ...] to the
    end of the [if]): it yields the pair ([final], [invert_note]). *)
Definition polarity_correction (closed : Mat) : Mat * string :=
  let white_ratio := np_true_divide (np_sum_gt closed 127) (size_of closed) in
  if np_lt white_ratio 0.5
  then (bitwise_not closed, " (inverted — detected dark background)")
  else (closed, " (no inversion needed)").

Section Pipeline.
Context {cv : Cv2}.

(** [img_to_base64(img, fmt=".jpg")] *)
Definition img_to_base64 (img : Mat) (fmt : string) : string :=
  match imencode fmt img with
  | None => EmptyString
  | Some buf =>
      let b64 := b64encode buf in
      let mime :=
        if String.eqb fmt ".jpg" then "image/jpeg" else "image/png" in
      "data:" +:+ mime +:+ ";base64," +:+ b64
  end.

(** [run_pipeline(img_bytes)].  Every call of [img_to_base64] in the
    source leaves [fmt] at its default, [".jpg"].  The source has no
    [try]: an exception of [cv2.imdecode] ends the run. *)
Definition run_pipeline (img_bytes : list byte)
    : Result (gmap string PyVal) :=
  let arr := np_frombuffer img_bytes in
  match imdecode arr IMREAD_COLOR with
  | Raise e => Raise e
  | Ok None => Ok {[ "error" := VStr "Failed to decode image" ]}
  | Ok (Some original) =>
    let '(h, w) := shape2 original in
    let steps : list PyVal := [] in
    (* Step 0: Original *)
    let steps := steps ++ [step_dict
      "Original"
      ("Input image as received (" +:+ pretty w +:+ "×" +:+ pretty h +:+ ")")
      (img_to_base64 original ".jpg")] in
    (* Step 1: Grayscale conversion *)
    let gray := cvtColor original COLOR_BGR2GRAY in
    let steps := steps ++ [step_dict
      "① Grayscale"
      "Convert to single-channel grayscale. Removes color noise, reduces data for processing."
      (img_to_base64 (cvtColor gray COLOR_GRAY2BGR) ".jpg")] in
    (* Step 2: Bilateral filter *)
    let bilateral := bilateralFilter gray 9 75 75 in
    let steps := steps ++ [step_dict
      "② Bilateral Filter"
      "Denoise while preserving edges. d=9, σColor=75, σSpace=75. Smooths paper texture without blurring pencil lines."
      (img_to_base64 (cvtColor bilateral COLOR_GRAY2BGR) ".jpg")] in
    (* Step 3: CLAHE *)
    let clahe := createCLAHE 3.0 (8, 8)%Z in
    let enhanced := clahe_apply clahe bilateral in
    let steps := steps ++ [step_dict
      "③ CLAHE"
      "Contrast Limited Adaptive Histogram Equalization. clipLimit=3.0, grid=8×8. Makes faint pencil strokes visible without blowing out highlights."
      (img_to_base64 (cvtColor enhanced COLOR_GRAY2BGR) ".jpg")] in
    (* Step 4: Adaptive threshold *)
    let thresh :=
      adaptiveThreshold enhanced 255
        ADAPTIVE_THRESH_GAUSSIAN_C THRESH_BINARY 21 10 in
    let steps := steps ++ [step_dict
      "④ Adaptive Threshold"
      "Gaussian adaptive threshold. blockSize=21, C=10. Separates lines from background even with uneven lighting. Paper → white, lines → black."
      (img_to_base64 (cvtColor thresh COLOR_GRAY2BGR) ".jpg")] in
    (* Step 5: Morphological close *)
    let kernel := getStructuringElement MORPH_ELLIPSE (2, 2)%Z in
    let closed := morphologyEx thresh MORPH_CLOSE kernel 1 in
    let steps := steps ++ [step_dict
      "⑤ Morphological Close"
      "Close operation with 2×2 ellipse kernel. Fills tiny gaps in pencil lines without thickening them too much."
      (img_to_base64 (cvtColor closed COLOR_GRAY2BGR) ".jpg")] in
    (* Step 6: Final cleanup *)
    let '(final, invert_note) := polarity_correction closed in
    let final := medianBlur final 3 in
    let steps := steps ++ [step_dict
      "⑥ Final Cleanup"
      ("Median blur (3px) to remove speckles" +:+ invert_note +:+
       ". Clean dark lines on white background, ready for Gemini.")
      (img_to_base64 (cvtColor final COLOR_GRAY2BGR) ".jpg")] in
    (* Alt A: lighter threshold *)
    let alt_light :=
      adaptiveThreshold enhanced 255
        ADAPTIVE_THRESH_GAUSSIAN_C THRESH_BINARY 31 6 in
    let steps := steps ++ [step_dict
      "Alt A: Light Touch"
      "Less aggressive threshold (blockSize=31, C=6). Preserves more subtle shading and detail at the cost of some background noise."
      (img_to_base64 (cvtColor alt_light COLOR_GRAY2BGR) ".jpg")] in
    (* Alt B: CLAHE only *)
    let clahe_only := cvtColor enhanced COLOR_GRAY2BGR in
    let clahe_bright := convertScaleAbs enhanced 1.3 40 in
    let steps := steps ++ [step_dict
      "Alt B: CLAHE Only (No Threshold)"
      "Just contrast enhancement + brightness boost (α=1.3, β=40). Preserves all tonal information — pencil pressure, shading, soft edges. Least destructive."
      (img_to_base64 (cvtColor clahe_bright COLOR_GRAY2BGR) ".jpg")] in
    (* Alt C: Canny edges *)
    let edges := Canny bilateral 30 100 in
    let edges_inv := bitwise_not edges in
    let steps := steps ++ [step_dict
      "Alt C: Canny Edge Detection"
      "Canny edges (low=30, high=100). Extracts clean line art. Very clean but loses all shading and pencil weight information."
      (img_to_base64 (cvtColor edges_inv COLOR_GRAY2BGR) ".jpg")] in
    Ok {[ "steps" := VList steps ]}
  end.
End Pipeline.

(* ===================================================================== *)
(** ** The Python standard library calls of the handler *)
(* ===================================================================== *)

(** [json.loads], [json.dumps], [base64.b64decode], [int] of a header
    value and [str] of a value inside an f-string. *)
Class PyStd := {
  json_loads : list byte → Result PyVal;
  json_dumps : PyVal → string;
  b64decode : string → Result (list byte);
  py_int : string → Result Z;
  py_str : PyVal → string
}.

(** A value inside an f-string: a [str] is inserted as it is. *)
Definition format_value `{PyStd} (v : PyVal) : string :=
  match v with
  | VStr s => s
  | _ => py_str v
  end.

(* ===================================================================== *)
(** ** The HTTP handler *)
(* ===================================================================== *)

(** The handler object [self] of one request: the parsed request, the input
    stream, and what the handler has sent so far.  [wfile] holds what the
    handler writes through [self.wfile.write], the bytes that follow the
    header block; [stdout] holds the lines printed. *)
Record Handler := {
  command : string;
  path : string;
  requestline : string;
  headers : gmap string string;
  rfile : list byte;
  status : option Z;
  sent_headers : list (string * string);
  headers_ended : bool;
  wfile : string;
  stdout : list string
}.

Definition M (A : Type) : Type := Handler → Result A * Handler.

#[global] Instance M_ret : MRet M := λ A a self, (Ok a, self).

#[global] Instance M_bind : MBind M := λ A B f m self,
  match m self with
  | (Ok a, self') => f a self'
  | (Raise e, self') => (Raise e, self')
  end.

Definition get_self : M Handler := λ self, (Ok self, self).

Definition lift {A} (r : Result A) : M A := λ self, (r, self).

Definition set_rfile (r : list byte) (self : Handler) : Handler :=
  {| command := command self; path := path self;
     requestline := requestline self; headers := headers self;
     rfile := r; status := status self;
     sent_headers := sent_headers self;
     headers_ended := headers_ended self; wfile := wfile self;
     stdout := stdout self |}.

Definition set_status (code : Z) (self : Handler) : Handler :=
  {| command := command self; path := path self;
     requestline := requestline self; headers := headers self;
     rfile := rfile self; status := Some code;
     sent_headers := sent_headers self;
     headers_ended := headers_ended self; wfile := wfile self;
     stdout := stdout self |}.

Definition add_header (k v : string) (self : Handler) : Handler :=
  {| command := command self; path := path self;
     requestline := requestline self; headers := headers self;
     rfile := rfile self; status := status self;
     sent_headers := sent_headers self ++ [(k, v)];
     headers_ended := headers_ended self; wfile := wfile self;
     stdout := stdout self |}.

Definition set_headers_ended (self : Handler) : Handler :=
  {| command := command self; path := path self;
     requestline := requestline self; headers := headers self;
     rfile := rfile self; status := status self;
     sent_headers := sent_headers self;
     headers_ended := true; wfile := wfile self;
     stdout := stdout self |}.

Definition add_wfile (s : string) (self : Handler) : Handler :=
  {| command := command self; path := path self;
     requestline := requestline self; headers := headers self;
     rfile := rfile self; status := status self;
     sent_headers := sent_headers self;
     headers_ended := headers_ended self; wfile := wfile self +:+ s;
     stdout := stdout self |}.

Definition add_stdout (line : string) (self : Handler) : Handler :=
  {| command := command self; path := path self;
     requestline := requestline self; headers := headers self;
     rfile := rfile self; status := status self;
     sent_headers := sent_headers self;
     headers_ended := headers_ended self; wfile := wfile self;
     stdout := stdout self ++ [line] |}.

Definition modify (f : Handler → Handler) : M unit := λ self, (Ok (), f self).

(** [print(line)] *)
Definition print (line : string) : M unit := modify (add_stdout line).

(** [Handler.log_message(self, format, *args)] *)
Definition log_message (format : string) (args : list string) : M unit :=
  self ← get_self;
  print ("[" +:+ command self +:+ "] " +:+
         match args with a :: _ => a | [] => EmptyString end).

Definition dquote : string := String (ascii_of_nat 34) EmptyString.

(** The format string the base class passes to [log_message] from
    [log_request]. *)
Definition log_request_format : string :=
  dquote +:+ "%s" +:+ dquote +:+ " %s %s".

(** [self.send_response(code)]: the base class logs the request through
    [log_message] (request line, code, "-") and records the status line.
    The [Server] and [Date] headers that the base class adds on its own are
    not recorded in [sent_headers]. *)
Definition send_response (code : Z) : M unit :=
  self ← get_self;
  log_message log_request_format [requestline self; pretty code; "-"] ;;
  modify (set_status code).

(** [self.send_header(k, v)] *)
Definition send_header (k v : string) : M unit := modify (add_header k v).

(** [self.end_headers()] *)
Definition end_headers : M unit := modify set_headers_ended.

(** [self.wfile.write(s.encode())] *)
Definition wfile_write (s : string) : M unit := modify (add_wfile s).

(** [self.rfile.read(n)]: at most [n] bytes of the stream; a negative [n]
    reads all of it. *)
Definition rfile_read (n : Z) : M (list byte) := λ self,
  if (n <? 0)%Z then (Ok (rfile self), set_rfile [] self)
  else (Ok (take (Z.to_nat n) (rfile self)),
        set_rfile (drop (Z.to_nat n) (rfile self)) self).

Section Server.
Context {cv : Cv2} {py : PyStd}.

(** The static page, a long string literal of the source. *)
Variable HTML_PAGE : string.

(** [Handler.do_GET] *)
Definition do_GET : M unit :=
  send_response 200 ;;
  send_header "Content-Type" "text/html" ;;
  end_headers ;;
  wfile_write HTML_PAGE.

(** [int(self.headers.get("Content-Length", 0))] *)
Definition content_length : M Z :=
  self ← get_self;
  match headers self !! "Content-Length" with
  | Some v => lift (py_int v)
  | None => mret 0%Z
  end.

(** [base64.b64decode(v)] of a value read from the JSON body. *)
Definition b64decode_value (v : PyVal) : Result (list byte) :=
  match v with
  | VStr s => b64decode s
  | _ => Raise TypeError
  end.

(** [Handler.do_POST] *)
Definition do_POST : M unit :=
  self ← get_self;
  if negb (String.eqb (path self) "/process") then
    send_response 404 ;;
    end_headers
  else
    length ← content_length;
    body ← rfile_read length;
    data ← lift (json_loads body);
    image ← lift (subscript data "image");
    img_bytes ← lift (b64decode_value image);
    print ("[Pipeline] Processing image (" +:+
           pretty (Z.of_nat (List.length img_bytes)) +:+ " bytes)...") ;;
    result ← lift (run_pipeline img_bytes);
    (if bool_decide (is_Some (result !! "steps")) then
       steps ← lift (subscript (VDict result) "steps");
       n ← lift (py_len steps);
       print ("[Pipeline] ✅ Generated " +:+ pretty n +:+ " steps")
     else
       print ("[Pipeline] ❌ " +:+
              format_value (default (VStr "unknown error")
                              (result !! "error")))) ;;
    send_response 200 ;;
    send_header "Content-Type" "application/json" ;;
    end_headers ;;
    wfile_write (json_dumps (VDict result)).
End Server.

(* ===================================================================== *)
(** ** A stand-in library, to run the definitions on concrete inputs *)
(* ===================================================================== *)

(** The properties below hold for every implementation of [Cv2] and
    [PyStd].  To evaluate the pipeline on explicit bytes, this section gives
    one small implementation of each: an uncompressed image format (one
    byte of width, one of height, then the BGR elements; the decoder
    raises on an empty buffer, as OpenCV does), filters that act
    element by element, and a JSON reader for the two request bodies
    [{}] and [{"image": "..."}]. *)

Definition z_of_byte (b : byte) : Z := Z.of_N (Byte.to_N b).

Definition byte_of_z (z : Z) : byte :=
  default x00 (Byte.of_N (Z.to_N (z mod 256))).

Definition map_data (f : Z → Z) (img : Mat) : Mat :=
  {| rows := rows img; cols := cols img; channels := channels img;
     data := map f (data img) |}.

Definition raw_imdecode (buf : list byte) (flags : ImreadModes)
    : Result (option Mat) :=
  match buf with
  | [] => Raise CvError
  | w :: h :: px =>
      let w := Byte.to_N w in
      let h := Byte.to_N h in
      if bool_decide (w ≠ 0 ∧ h ≠ 0 ∧ N.of_nat (length px) = 3 * w * h)%N
      then Ok (Some {| rows := h; cols := w; channels := 3;
                       data := map z_of_byte px |})
      else Ok None
  | _ => Ok None
  end.

Definition raw_imencode (fmt : string) (img : Mat) : option (list byte) :=
  Some (byte_of_z (Z.of_N (cols img)) :: byte_of_z (Z.of_N (rows img))
        :: map byte_of_z (data img)).

Fixpoint mean_of_triples (px : list Z) : list Z :=
  match px with
  | b :: g :: r :: rest => ((b + g + r) / 3)%Z :: mean_of_triples rest
  | _ => []
  end.

Definition raw_cvtColor (img : Mat) (code : ColorConversionCodes) : Mat :=
  match code with
  | COLOR_BGR2GRAY =>
      {| rows := rows img; cols := cols img; channels := 1;
         data := mean_of_triples (data img) |}
  | COLOR_GRAY2BGR =>
      {| rows := rows img; cols := cols img; channels := 3;
         data := flat_map (λ p, [p; p; p]) (data img) |}
  end.

(** A threshold against the mean of the whole raster. *)
Definition raw_adaptiveThreshold (img : Mat) (maxValue : Z)
    (method : AdaptiveThresholdTypes) (type : ThresholdTypes)
    (blockSize C : Z) : Mat :=
  let n := Z.of_nat (length (data img)) in
  let mean := (foldr Z.add 0 (data img) / Z.max 1 n)%Z in
  map_data (λ p,
    match type with
    | THRESH_BINARY => if (mean - C <? p)%Z then maxValue else 0%Z
    | THRESH_BINARY_INV => if (mean - C <? p)%Z then 0%Z else maxValue
    end) img.

Definition raw_getStructuringElement (shape : MorphShapes) (ksize : Z * Z)
    : Mat :=
  {| rows := Z.to_N (snd ksize); cols := Z.to_N (fst ksize); channels := 1;
     data := replicate (Z.to_nat (fst ksize * snd ksize)) 1%Z |}.

Definition raw_convertScaleAbs (img : Mat) (alpha beta : Q) : Mat :=
  map_data (λ p, Z.min 255 (Z.abs (Qfloor (alpha * inject_Z p + beta)))) img.

Definition raw_cv : Cv2 := {|
  imdecode := raw_imdecode;
  imencode := raw_imencode;
  cvtColor := raw_cvtColor;
  bilateralFilter := λ img d sigmaColor sigmaSpace, img;
  clahe_apply := λ clahe img, img;
  adaptiveThreshold := raw_adaptiveThreshold;
  getStructuringElement := raw_getStructuringElement;
  morphologyEx := λ img op kernel iterations, img;
  medianBlur := λ img ksize, img;
  convertScaleAbs := raw_convertScaleAbs;
  Canny := λ img threshold1 threshold2, map_data (λ _, 0%Z) img
|}.

(** The same library with an encoder that reports failure. *)
Definition failing_codec_cv : Cv2 := {|
  imdecode := raw_imdecode;
  imencode := λ fmt img, None;
  cvtColor := raw_cvtColor;
  bilateralFilter := λ img d sigmaColor sigmaSpace, img;
  clahe_apply := λ clahe img, img;
  adaptiveThreshold := raw_adaptiveThreshold;
  getStructuringElement := raw_getStructuringElement;
  morphologyEx := λ img op kernel iterations, img;
  medianBlur := λ img ksize, img;
  convertScaleAbs := raw_convertScaleAbs;
  Canny := λ img threshold1 threshold2, map_data (λ _, 0%Z) img
|}.

(** A strict base64 decoder. *)
Fixpoint b64_index (c : ascii) (alphabet : string) (i : N) : N :=
  match alphabet with
  | EmptyString => 64
  | String a rest => if Ascii.eqb a c then i else b64_index c rest (i + 1)%N
  end.

Definition byte_of_N (n : N) : byte := default x00 (Byte.of_N (n mod 256)).

Fixpoint b64_groups (l : list N) : Result (list byte) :=
  match l with
  | [] => Ok []
  | a :: b :: c :: d :: rest =>
      if (a <? 64)%N && (b <? 64)%N then
        if (c <? 64)%N && (d <? 64)%N then
          match b64_groups rest with
          | Ok out =>
              Ok (byte_of_N (a * 4 + b / 16) :: byte_of_N (b * 16 + c / 4)
                  :: byte_of_N (c * 64 + d) :: out)
          | Raise e => Raise e
          end
        else if (c <? 64)%N && bool_decide (rest = []) then
          Ok [byte_of_N (a * 4 + b / 16); byte_of_N (b * 16 + c / 4)]
        else if (c =? 64)%N && bool_decide (rest = []) then
          Ok [byte_of_N (a * 4 + b / 16)]
        else Raise BinasciiError
      else Raise BinasciiError
  | _ => Raise BinasciiError
  end.

Definition strict_b64decode (s : string) : Result (list byte) :=
  b64_groups (map (λ c, b64_index c b64_alphabet 0) (list_ascii_of_string s)).

Fixpoint has_char (c : ascii) (s : string) : bool :=
  match s with
  | EmptyString => false
  | String a rest => Ascii.eqb a c || has_char c rest
  end.

(** A JSON reader for the texts [{}] and [{"image": "<payload>"}], the
    payload free of quotes and backslashes; every other text is refused. *)
Definition tiny_json_loads (body : list byte) : Result PyVal :=
  let s := string_of_list_byte body in
  let pre := "{" +:+ dquote +:+ "image" +:+ dquote +:+ ": " +:+ dquote in
  let suf := dquote +:+ "}" in
  let n := String.length s in
  let np := String.length pre in
  let ns := String.length suf in
  if String.eqb s "{}" then Ok (VDict ∅)
  else if String.prefix pre s && (np + ns <=? n)%nat
          && String.eqb (substring (n - ns) ns s) suf then
    let payload := substring np (n - np - ns) s in
    if has_char (ascii_of_nat 34) payload || has_char (ascii_of_nat 92) payload
    then Raise JSONDecodeError
    else Ok (VDict {[ "image" := VStr payload ]})
  else Raise JSONDecodeError.

(** A JSON writer for the two shapes of pipeline result. *)
Definition tiny_json_string (v : PyVal) : string :=
  match v with
  | VStr s => dquote +:+ s +:+ dquote
  | _ => "null"
  end.

Definition tiny_json_step (v : PyVal) : string :=
  match v with
  | VDict d =>
      "{" +:+ dquote +:+ "name" +:+ dquote +:+ ": "
        +:+ tiny_json_string (default VNone (d !! "name")) +:+ ", "
        +:+ dquote +:+ "description" +:+ dquote +:+ ": "
        +:+ tiny_json_string (default VNone (d !! "description")) +:+ ", "
        +:+ dquote +:+ "image" +:+ dquote +:+ ": "
        +:+ tiny_json_string (default VNone (d !! "image")) +:+ "}"
  | _ => "null"
  end.

Definition tiny_json_dumps (v : PyVal) : string :=
  match v with
  | VDict d =>
      match d !! "steps", d !! "error" with
      | Some (VList steps), _ =>
          "{" +:+ dquote +:+ "steps" +:+ dquote +:+ ": ["
            +:+ String.concat ", " (map tiny_json_step steps) +:+ "]}"
      | _, Some e =>
          "{" +:+ dquote +:+ "error" +:+ dquote +:+ ": "
            +:+ tiny_json_string e +:+ "}"
      | _, _ => "{}"
      end
  | _ => tiny_json_string v
  end.

Fixpoint digits_value (s : string) (acc : Z) : Result Z :=
  match s with
  | EmptyString => Ok acc
  | String c rest =>
      let d := Z.of_N (N_of_ascii c) in
      if (48 <=? d)%Z && (d <=? 57)%Z
      then digits_value rest (10 * acc + (d - 48))%Z
      else Raise ValueError
  end.

Definition tiny_py_int (s : string) : Result Z :=
  match s with
  | EmptyString => Raise ValueError
  | _ => digits_value s 0
  end.

Definition tiny_py : PyStd := {|
  json_loads := tiny_json_loads;
  json_dumps := tiny_json_dumps;
  b64decode := strict_b64decode;
  py_int := tiny_py_int;
  py_str := tiny_json_dumps
|}.

(** A 1×1 white image in the stand-in format, and a request carrying it. *)
Definition white_pixel : list byte := [x01; x01; xff; xff; xff].

Definition new_request (cmd p : string) (hs : gmap string string)
    (body : list byte) : Handler :=
  {| command := cmd; path := p;
     requestline := cmd +:+ " " +:+ p +:+ " HTTP/1.1";
     headers := hs; rfile := body;
     status := None; sent_headers := []; headers_ended := false;
     wfile := EmptyString; stdout := [] |}.

Definition white_pixel_body : list byte :=
  list_byte_of_string
    ("{" +:+ dquote +:+ "image" +:+ dquote +:+ ": " +:+ dquote
       +:+ b64encode white_pixel +:+ dquote +:+ "}").

Definition white_pixel_request : Handler :=
  new_request "POST" "/process"
    {[ "Content-Length" := pretty (Z.of_nat (length white_pixel_body)) ]}
    white_pixel_body.

(** The raster that the stand-in decoder reads from [white_pixel]. *)
Definition white_pixel_raster : Mat :=
  {| rows := 1; cols := 1; channels := 3; data := [255; 255; 255]%Z |}.

(** Two synthetic single-channel rasters, 2×2: all black and all white. *)
Definition black_raster : Mat :=
  {| rows := 2; cols := 2; channels := 1; data := [0; 0; 0; 0]%Z |}.

Definition white_raster : Mat :=
  {| rows := 2; cols := 2; channels := 1; data := [255; 255; 255; 255]%Z |}.

(** Three more requests: a POST to /process whose body is the empty JSON
    object, a GET of /process, and a POST to another path. *)
Definition empty_object_request : Handler :=
  new_request "POST" "/process" {[ "Content-Length" := "2" ]}
    (list_byte_of_string "{}").

(** A POST to /process whose image text is empty: it decodes to no bytes
    at all. *)
Definition empty_image_body : list byte :=
  list_byte_of_string
    ("{" +:+ dquote +:+ "image" +:+ dquote +:+ ": " +:+ dquote
       +:+ dquote +:+ "}").

Definition empty_image_request : Handler :=
  new_request "POST" "/process"
    {[ "Content-Length" := pretty (Z.of_nat (length empty_image_body)) ]}
    empty_image_body.

Definition get_process_request : Handler :=
  new_request "GET" "/process" ∅ [].

Definition bad_path_request : Handler :=
  new_request "POST" "/badpath" ∅ [].

(** A 3×2 image in the stand-in format: three columns, two rows. *)
Definition wide_image : list byte :=
  [x03; x02] ++ replicate 18 x40.

(* ===================================================================== *)
(** ** Vocabulary of the statements *)
(* ===================================================================== *)

(** The string stored under key [k] of a step. *)
Definition field (k : string) (v : PyVal) : option string :=
  match v with
  | VDict d =>
      match d !! k with
      | Some (VStr s) => Some s
      | _ => None
      end
  | _ => None
  end.

(** The names of the ten steps, in the order of the source. *)
Definition step_names : list string :=
  [ "Original"; "① Grayscale"; "② Bilateral Filter"; "③ CLAHE";
    "④ Adaptive Threshold"; "⑤ Morphological Close"; "⑥ Final Cleanup";
    "Alt A: Light Touch"; "Alt B: CLAHE Only (No Threshold)";
    "Alt C: Canny Edge Detection" ].

(** The descriptions of the ten steps: eight literals, and two texts that
    are computed, from the size of the input for the first step and from the
    inversion note for the seventh. *)
Definition step_descriptions (w h : N) (invert_note : string) : list string :=
  [ "Input image as received (" +:+ pretty w +:+ "×" +:+ pretty h +:+ ")";
    "Convert to single-channel grayscale. Removes color noise, reduces data for processing.";
    "Denoise while preserving edges. d=9, σColor=75, σSpace=75. Smooths paper texture without blurring pencil lines.";
    "Contrast Limited Adaptive Histogram Equalization. clipLimit=3.0, grid=8×8. Makes faint pencil strokes visible without blowing out highlights.";
    "Gaussian adaptive threshold. blockSize=21, C=10. Separates lines from background even with uneven lighting. Paper → white, lines → black.";
    "Close operation with 2×2 ellipse kernel. Fills tiny gaps in pencil lines without thickening them too much.";
    "Median blur (3px) to remove speckles" +:+ invert_note +:+
      ". Clean dark lines on white background, ready for Gemini.";
    "Less aggressive threshold (blockSize=31, C=6). Preserves more subtle shading and detail at the cost of some background noise.";
    "Just contrast enhancement + brightness boost (α=1.3, β=40). Preserves all tonal information — pencil pressure, shading, soft edges. Least destructive.";
    "Canny edges (low=30, high=100). Extracts clean line art. Very clean but loses all shading and pencil weight information." ].

Definition inverted_note : string := " (inverted — detected dark background)".
Definition not_inverted_note : string := " (no inversion needed)".

(** [is_substring p s]: [p] occurs in [s]. *)
Fixpoint is_substring (p s : string) : bool :=
  String.prefix p s ||
  match s with
  | EmptyString => false
  | String _ s' => is_substring p s'
  end.

(** The rasters that [run_pipeline] hands to the encoder, in order; the
    nine after the first are single-channel rasters widened by
    [COLOR_GRAY2BGR]. *)
Definition gray_rasters `{Cv2} (original : Mat) : list Mat :=
  let gray := cvtColor original COLOR_BGR2GRAY in
  let bilateral := bilateralFilter gray 9 75 75 in
  let enhanced := clahe_apply (createCLAHE 3.0 (8, 8)%Z) bilateral in
  let thresh :=
    adaptiveThreshold enhanced 255
      ADAPTIVE_THRESH_GAUSSIAN_C THRESH_BINARY 21 10 in
  let closed :=
    morphologyEx thresh MORPH_CLOSE
      (getStructuringElement MORPH_ELLIPSE (2, 2)%Z) 1 in
  [ gray; bilateral; enhanced; thresh; closed;
    medianBlur (polarity_correction closed).1 3;
    adaptiveThreshold enhanced 255
      ADAPTIVE_THRESH_GAUSSIAN_C THRESH_BINARY 31 6;
    convertScaleAbs enhanced 1.3 40;
    bitwise_not (Canny bilateral 30 100) ].

Definition encoded_rasters `{Cv2} (original : Mat) : list Mat :=
  original :: map (λ g, cvtColor g COLOR_GRAY2BGR) (gray_rasters original).

(** The name and the image of the step at position [i]. *)
Definition labelled (steps : list PyVal) (i : nat) : option (string * string) :=
  s ← steps !! i;
  n ← field "name" s;
  im ← field "image" s;
  Some (n, im).

(** The fraction of the elements of a non-empty raster that are above 127. *)
Definition white_fraction (closed : Mat) : Q :=
  Qmake (np_sum_gt closed 127) (Z.to_pos (size_of closed)).

(** The description of the seventh step for a given inversion note. *)
Definition final_description (invert_note : string) : string :=
  "Median blur (3px) to remove speckles" +:+ invert_note +:+
  ". Clean dark lines on white background, ready for Gemini.".

(** The characters of a base64 text: the alphabet and the padding sign. *)
Definition is_b64_char (c : ascii) : bool :=
  has_char c b64_alphabet || Ascii.eqb c b64_pad.

Fixpoint string_all (p : ascii → bool) (s : string) : bool :=
  match s with
  | EmptyString => true
  | String c s' => p c && string_all p s'
  end.

(** What the handler has sent between the states [self] and [self']: the
    status line [code], the headers [hdrs] and the payload [body]. *)
Definition responded (self self' : Handler) (code : Z)
    (hdrs : list (string * string)) (body : string) : Prop :=
  status self' = Some code
  ∧ sent_headers self' = sent_headers self ++ hdrs
  ∧ headers_ended self' = true
  ∧ wfile self' = wfile self +:+ body.

(** An element of a [uint8] raster, and a raster of such elements. *)
Definition is_u8 (p : Z) : Prop := (0 ≤ p ≤ 255)%Z.

Definition u8_raster (img : Mat) : Prop := Forall is_u8 (data img).

(** Two libraries that answer every call but [imencode] alike. *)
Record cv2_agree_filters (cv1 cv2 : Cv2) : Prop := {
  filters_imdecode : ∀ buf flags,
    @imdecode cv1 buf flags = @imdecode cv2 buf flags;
  filters_cvtColor : ∀ img code,
    @cvtColor cv1 img code = @cvtColor cv2 img code;
  filters_bilateralFilter : ∀ img d sc ss,
    @bilateralFilter cv1 img d sc ss = @bilateralFilter cv2 img d sc ss;
  filters_clahe_apply : ∀ clahe img,
    @clahe_apply cv1 clahe img = @clahe_apply cv2 clahe img;
  filters_adaptiveThreshold : ∀ img mv method type bs c,
    @adaptiveThreshold cv1 img mv method type bs c
    = @adaptiveThreshold cv2 img mv method type bs c;
  filters_getStructuringElement : ∀ shape ksize,
    @getStructuringElement cv1 shape ksize
    = @getStructuringElement cv2 shape ksize;
  filters_morphologyEx : ∀ img op kernel it,
    @morphologyEx cv1 img op kernel it = @morphologyEx cv2 img op kernel it;
  filters_medianBlur : ∀ img k,
    @medianBlur cv1 img k = @medianBlur cv2 img k;
  filters_convertScaleAbs : ∀ img a b,
    @convertScaleAbs cv1 img a b = @convertScaleAbs cv2 img a b;
  filters_Canny : ∀ img t1 t2,
    @Canny cv1 img t1 t2 = @Canny cv2 img t1 t2
}.

(** Two handler states that have sent and printed the same. *)
Definition same_outputs (s1 s2 : Handler) : Prop :=
  status s1 = status s2
  ∧ sent_headers s1 = sent_headers s2
  ∧ headers_ended s1 = headers_ended s2
  ∧ wfile s1 = wfile s2
  ∧ stdout s1 = stdout s2.

(** Linear arithmetic with division and remainder by constants. *)
Ltac div_lia := Zify.zify; Z.to_euclidean_division_equations; lia.

(* ===================================================================== *)
(** ** Properties of the pipeline *)
(* ===================================================================== *)

Lemma field_name_step_dict (n d i : string) :
  field "name" (step_dict n d i) = Some n.
Proof. reflexivity. Qed.

Lemma field_description_step_dict (n d i : string) :
  field "description" (step_dict n d i) = Some d.
Proof. reflexivity. Qed.

Lemma field_image_step_dict (n d i : string) :
  field "image" (step_dict n d i) = Some i.
Proof. reflexivity. Qed.

Lemma polarity_correction_note (closed : Mat) :
  (polarity_correction closed).2 = inverted_note
  ∨ (polarity_correction closed).2 = not_inverted_note.
Proof.
  unfold polarity_correction.
  destruct (np_lt _ _); [left | right]; reflexivity.
Qed.

Section PipelineFacts.
Context {cv : Cv2}.

(** The whole result of a run on an input that decodes: the ten
    dictionaries, with every argument of every library call. *)
Lemma run_pipeline_steps (img_bytes : list byte) (original : Mat) :
  imdecode (np_frombuffer img_bytes) IMREAD_COLOR = Ok (Some original) →
  let gray := cvtColor original COLOR_BGR2GRAY in
  let bilateral := bilateralFilter gray 9 75 75 in
  let enhanced := clahe_apply (createCLAHE 3.0 (8, 8)%Z) bilateral in
  let thresh :=
    adaptiveThreshold enhanced 255
      ADAPTIVE_THRESH_GAUSSIAN_C THRESH_BINARY 21 10 in
  let closed :=
    morphologyEx thresh MORPH_CLOSE
      (getStructuringElement MORPH_ELLIPSE (2, 2)%Z) 1 in
  let final := medianBlur (polarity_correction closed).1 3 in
  let alt_light :=
    adaptiveThreshold enhanced 255
      ADAPTIVE_THRESH_GAUSSIAN_C THRESH_BINARY 31 6 in
  let clahe_bright := convertScaleAbs enhanced 1.3 40 in
  let edges_inv := bitwise_not (Canny bilateral 30 100) in
  let enc := λ g, img_to_base64 (cvtColor g COLOR_GRAY2BGR) ".jpg" in
  let desc :=
    step_descriptions (cols original) (rows original)
      (polarity_correction closed).2 in
  run_pipeline img_bytes =
    Ok {[ "steps" := VList
       [ step_dict "Original" (desc !!! 0%nat)
           (img_to_base64 original ".jpg");
         step_dict "① Grayscale" (desc !!! 1%nat) (enc gray);
         step_dict "② Bilateral Filter" (desc !!! 2%nat) (enc bilateral);
         step_dict "③ CLAHE" (desc !!! 3%nat) (enc enhanced);
         step_dict "④ Adaptive Threshold" (desc !!! 4%nat) (enc thresh);
         step_dict "⑤ Morphological Close" (desc !!! 5%nat) (enc closed);
         step_dict "⑥ Final Cleanup" (desc !!! 6%nat) (enc final);
         step_dict "Alt A: Light Touch" (desc !!! 7%nat) (enc alt_light);
         step_dict "Alt B: CLAHE Only (No Threshold)" (desc !!! 8%nat)
           (enc clahe_bright);
         step_dict "Alt C: Canny Edge Detection" (desc !!! 9%nat)
           (enc edges_inv) ] ]}.
Proof.
  intros Hdec. cbv zeta. unfold run_pipeline. rewrite Hdec.
  unfold shape2.
  destruct (polarity_correction _) as [final note].
  reflexivity.
Qed.
End PipelineFacts.

Section PipelineClaims.
Context {cv : Cv2}.

(** An encoded image is empty exactly when the codec reports failure. *)
Lemma img_to_base64_nonempty (img : Mat) (fmt : string) :
  is_Some (imencode fmt img) ↔ img_to_base64 img fmt ≠ EmptyString.
Proof.
  unfold img_to_base64. destruct (imencode fmt img) as [buf|].
  - split; [intros _ | eauto]. discriminate.
  - split; [intros [? ?]; discriminate | intros Hne; by destruct Hne].
Qed.

(** C1 (amended). For every input that decodes, [run_pipeline] returns
    exactly ten steps, in the order Original, the six numbered steps, the
    three alternatives.  The names are the literal constants of
    [step_names].  The descriptions are those of [step_descriptions]:
    literal constants, except the first, which embeds the width and the
    height of the input, and the seventh, which embeds one of the two
    inversion notes.  Each image is the encoding of the corresponding
    raster, and it is a non-empty string whenever the codec reports
    success on that raster. *)
Theorem run_pipeline_ten_steps (img_bytes : list byte) (original : Mat) :
  imdecode (np_frombuffer img_bytes) IMREAD_COLOR = Ok (Some original) →
  ∃ steps note,
    run_pipeline img_bytes = Ok {[ "steps" := VList steps ]}
    ∧ length steps = 10%nat
    ∧ field "name" <$> steps = Some <$> step_names
    ∧ (note = inverted_note ∨ note = not_inverted_note)
    ∧ field "description" <$> steps
      = Some <$> step_descriptions (cols original) (rows original) note
    ∧ field "image" <$> steps
      = (λ r, Some (img_to_base64 r ".jpg")) <$> encoded_rasters original
    ∧ ∀ r, is_Some (imencode ".jpg" r) →
           img_to_base64 r ".jpg" ≠ EmptyString.
Proof.
  intros Hdec. pose proof (run_pipeline_steps _ _ Hdec) as Hrun.
  cbv zeta in Hrun. eexists _, _. split; [exact Hrun |].
  split; [reflexivity |].
  split; [reflexivity |].
  split; [apply polarity_correction_note |].
  split; [reflexivity |].
  split; [reflexivity |].
  intros r. apply img_to_base64_nonempty.
Qed.

(** C3 (the code at the failing input). [run_pipeline] has three
    outcomes, after the answer of [cv2.imdecode].  When the library raises,
    as it does on empty bytes, the exception ends the run: no dictionary is
    returned, neither an error-tagged one nor any other.  When the library
    returns [None], the result is the dictionary whose only entry is
    ["error"], a string, with no ["steps"] entry and so no partial list of
    steps.  Whenever the run returns, its result has exactly one of the two
    keys: either ["error"] (a string) and no ["steps"], or ["steps"] (a
    list) and no ["error"]. *)
Theorem run_pipeline_decode_outcomes (img_bytes : list byte) :
  (∀ e, imdecode (np_frombuffer img_bytes) IMREAD_COLOR = Raise e →
        run_pipeline img_bytes = Raise e)
  ∧ (imdecode (np_frombuffer img_bytes) IMREAD_COLOR = Ok None →
       run_pipeline img_bytes
       = Ok {[ "error" := VStr "Failed to decode image" ]})
  ∧ (∀ result, run_pipeline img_bytes = Ok result →
       (∃ msg, result !! "error" = Some (VStr msg))
         ∧ result !! "steps" = None
         ∧ dom result = ({[ "error" ]} : gset string)
       ∨ (∃ steps, result !! "steps" = Some (VList steps))
         ∧ result !! "error" = None
         ∧ dom result = ({[ "steps" ]} : gset string)).
Proof.
  split; [| split].
  - intros e Hdec. unfold run_pipeline. by rewrite Hdec.
  - intros Hdec. unfold run_pipeline. by rewrite Hdec.
  - intros result.
    destruct (imdecode (np_frombuffer img_bytes) IMREAD_COLOR)
      as [[original|] | e] eqn:Hdec.
    + rewrite (run_pipeline_steps _ _ Hdec). intros [= <-]. right.
      split; [eexists; reflexivity |].
      split; [reflexivity |]. apply dom_singleton_L.
    + unfold run_pipeline. rewrite Hdec. intros [= <-]. left.
      split; [eexists; reflexivity |].
      split; [reflexivity |]. apply dom_singleton_L.
    + unfold run_pipeline. rewrite Hdec. discriminate.
Qed.

(** What [img_to_base64] returns for the format ".jpg", read off the answer
    of the codec. *)
Lemma img_to_base64_jpg_cases (img : Mat) :
  img_to_base64 img ".jpg" =
    match imencode ".jpg" img with
    | Some buf => "data:image/jpeg;base64," +:+ b64encode buf
    | None => EmptyString
    end.
Proof. unfold img_to_base64. by destruct (imencode ".jpg" img). Qed.

(** C10 (amended). For every input that decodes, the first element of the
    list of steps is the step named "Original"; its description is
    "Input image as received (w×h)" with w the number of columns and h the
    number of rows of the decoded raster, in decimal.  Its image is the
    encoding of the decoded raster itself: when the codec returns bytes for
    that raster and the format ".jpg", the text "data:image/jpeg;base64,"
    followed by the base64 text of those bytes; when the codec reports
    failure, the empty string.  The grayscale step is the one right after
    it, and no later step bears the name "Original". *)
Theorem original_step_first (img_bytes : list byte) (original : Mat) :
  imdecode (np_frombuffer img_bytes) IMREAD_COLOR = Ok (Some original) →
  ∃ image rest,
    run_pipeline img_bytes =
      Ok {[ "steps" := VList
         (step_dict "Original"
            ("Input image as received (" +:+ pretty (cols original)
               +:+ "×" +:+ pretty (rows original) +:+ ")")
            image :: rest) ]}
    ∧ image =
        match imencode ".jpg" original with
        | Some buf => "data:image/jpeg;base64," +:+ b64encode buf
        | None => EmptyString
        end
    ∧ field "name" <$> rest !! 0%nat = Some (Some "① Grayscale")
    ∧ length rest = 9%nat
    ∧ Forall (λ s, field "name" s ≠ Some "Original") rest.
Proof.
  intros Hdec. pose proof (run_pipeline_steps _ _ Hdec) as Hrun.
  cbv zeta in Hrun. eexists _, _. split; [exact Hrun |].
  split; [apply img_to_base64_jpg_cases |].
  split; [reflexivity |]. split; [reflexivity |].
  repeat (apply Forall_cons; split;
          [rewrite field_name_step_dict; discriminate |]).
  apply Forall_nil_2.
Qed.
End PipelineClaims.

(** *** The inversion check *)

Lemma np_sum_gt_bounds (img : Mat) (t : Z) :
  (0 ≤ np_sum_gt img t ≤ size_of img)%Z.
Proof.
  unfold np_sum_gt, size_of.
  pose proof (length_filter (λ p, (t <? p)%Z = true) (data img)). lia.
Qed.

Lemma np_lt_half (c s : Z) :
  (0 ≤ c)%Z → (0 ≤ s)%Z →
  np_lt (np_true_divide c s) 0.5 = bool_decide (2 * c < s)%Z.
Proof.
  intros Hc Hs. unfold np_true_divide.
  destruct (Z.eqb_spec s 0) as [-> | Hne]; cbn [np_lt].
  - symmetry. apply bool_decide_eq_false. lia.
  - unfold Qle_bool. cbn [Qnum Qden].
    rewrite Z2Pos.id by lia.
    destruct (Z.leb_spec (5 * s) (c * 10)); cbn [negb]; symmetry;
      [apply bool_decide_eq_false | apply bool_decide_eq_true]; lia.
Qed.

Lemma polarity_correction_cases (closed : Mat) :
  polarity_correction closed =
    if bool_decide (2 * np_sum_gt closed 127 < size_of closed)%Z
    then (bitwise_not closed, inverted_note)
    else (closed, not_inverted_note).
Proof.
  unfold polarity_correction.
  pose proof (np_sum_gt_bounds closed 127).
  rewrite np_lt_half by (unfold size_of; lia).
  reflexivity.
Qed.

Lemma white_fraction_lt_half (closed : Mat) :
  data closed ≠ [] →
  (white_fraction closed < 0.5)%Q
  ↔ (2 * np_sum_gt closed 127 < size_of closed)%Z.
Proof.
  intros Hne. unfold white_fraction, Qlt. cbn [Qnum Qden].
  assert (0 < size_of closed)%Z.
  { unfold size_of. destruct (data closed); [done | cbn; lia]. }
  rewrite Z2Pos.id by lia. lia.
Qed.

Lemma np_sum_gt_all (img : Mat) (t v : Z) :
  Forall (λ p, p = v) (data img) →
  np_sum_gt img t = if (t <? v)%Z then size_of img else 0%Z.
Proof.
  unfold np_sum_gt, size_of. induction 1 as [|p l -> _ IH]; cbn [filter].
  - by destruct (t <? v)%Z.
  - rewrite filter_cons. destruct (t <? v)%Z eqn:Hlt.
    + rewrite decide_True by done.
      cbn [length]. rewrite !Nat2Z.inj_succ. lia.
    + rewrite decide_False by done. exact IH.
Qed.

Lemma not_u8_spec (p : Z) : (0 ≤ p ≤ 255)%Z → not_u8 p = (255 - p)%Z.
Proof.
  intros Hp. unfold not_u8, Z.lnot.
  change 255%Z with (Z.ones 8). rewrite Z.land_ones by lia.
  change (Z.ones 8) with 255%Z.
  symmetry. apply (Z.mod_unique_pos _ _ (-1)); lia.
Qed.

Section StageClaims.
Context {cv : Cv2}.

(** C5. The seventh step of every successful run is built from
    [polarity_correction closed], where [closed] is the output of the
    morphological close: its raster is the median blur of the first
    component and its description embeds the second.  For a non-empty
    [closed], when the fraction of elements above 127 is below 0.5 every
    element is inverted and the description says "inverted"; otherwise the
    raster is left as it is and the description says "no inversion needed".
    In particular an all-white raster is not inverted and a non-empty
    all-black raster is inverted.  Inverting an element [p] of 0..255 gives
    [255 - p]. *)
Theorem polarity_correction_step :
  (∀ img_bytes original,
     imdecode (np_frombuffer img_bytes) IMREAD_COLOR = Ok (Some original) →
     ∃ steps closed,
       run_pipeline img_bytes = Ok {[ "steps" := VList steps ]}
       ∧ gray_rasters original !! 4%nat = Some closed
       ∧ steps !! 6%nat = Some
           (step_dict "⑥ Final Cleanup"
              (final_description (polarity_correction closed).2)
              (img_to_base64
                 (cvtColor (medianBlur (polarity_correction closed).1 3)
                    COLOR_GRAY2BGR) ".jpg")))
  ∧ (∀ closed, data closed ≠ [] → (white_fraction closed < 0.5)%Q →
       polarity_correction closed
       = (bitwise_not closed, " (inverted — detected dark background)"))
  ∧ (∀ closed, data closed ≠ [] → ¬ (white_fraction closed < 0.5)%Q →
       polarity_correction closed = (closed, " (no inversion needed)"))
  ∧ (∀ closed, Forall (λ p, p = 255%Z) (data closed) →
       polarity_correction closed = (closed, " (no inversion needed)"))
  ∧ (∀ closed, data closed ≠ [] → Forall (λ p, p = 0%Z) (data closed) →
       polarity_correction closed
       = (bitwise_not closed, " (inverted — detected dark background)"))
  ∧ (∀ closed,
       data (bitwise_not closed) = map not_u8 (data closed)
       ∧ shape2 (bitwise_not closed) = shape2 closed)
  ∧ (∀ p, (0 ≤ p ≤ 255)%Z → not_u8 p = (255 - p)%Z)
  ∧ is_substring "inverted"
      (final_description " (inverted — detected dark background)") = true
  ∧ is_substring "no inversion needed"
      (final_description " (no inversion needed)") = true
  ∧ is_substring "inverted"
      (final_description " (no inversion needed)") = false.
Proof.
  split.
  { intros img_bytes original Hdec.
    pose proof (run_pipeline_steps _ _ Hdec) as Hrun. cbv zeta in Hrun.
    eexists _, _. split; [exact Hrun |]. split; reflexivity. }
  split.
  { intros closed Hne Hlt. rewrite polarity_correction_cases.
    rewrite bool_decide_eq_true_2; [reflexivity |].
    by apply white_fraction_lt_half. }
  split.
  { intros closed Hne Hge. rewrite polarity_correction_cases.
    rewrite bool_decide_eq_false_2; [reflexivity |].
    intros Hlt. apply Hge. by apply white_fraction_lt_half. }
  split.
  { intros closed Hall. rewrite polarity_correction_cases.
    rewrite (np_sum_gt_all _ _ _ Hall). cbn [Z.ltb Z.compare Pos.compare].
    rewrite bool_decide_eq_false_2; [reflexivity |].
    change (127 <? 255)%Z with true. cbv iota. unfold size_of. lia. }
  split.
  { intros closed Hne Hall. rewrite polarity_correction_cases.
    rewrite (np_sum_gt_all _ _ _ Hall).
    rewrite bool_decide_eq_true_2; [reflexivity |].
    change (127 <? 0)%Z with false. cbv iota. unfold size_of.
    destruct (data closed); [done | cbn; lia]. }
  split; [intros closed; split; reflexivity |].
  split; [exact not_u8_spec |].
  repeat split; vm_compute; reflexivity.
Qed.

(** C6. On every input that decodes, the main pipeline calls, in this
    order: the bilateral filter on the grayscale raster with diameter 9 and
    both sigmas 75 (giving [bilateral]); CLAHE with clip limit 3.0 and an
    8×8 tile grid on [bilateral] (giving [enhanced]); the Gaussian adaptive
    binary threshold on [enhanced] with block size 21 and offset 10 (giving
    [thresh]); the morphological close of [thresh], one iteration, with the
    2×2 elliptical kernel (giving [closed]); and the median blur of size 3
    on the polarity-corrected [closed] (giving the final raster).  Steps 1
    to 6 of the result carry these rasters under their names. *)
Theorem main_pipeline_stages (img_bytes : list byte) (original : Mat) :
  imdecode (np_frombuffer img_bytes) IMREAD_COLOR = Ok (Some original) →
  let gray := cvtColor original COLOR_BGR2GRAY in
  let bilateral := bilateralFilter gray 9 75 75 in
  let clahe := createCLAHE 3.0 (8, 8)%Z in
  let enhanced := clahe_apply clahe bilateral in
  let thresh :=
    adaptiveThreshold enhanced 255
      ADAPTIVE_THRESH_GAUSSIAN_C THRESH_BINARY 21 10 in
  let kernel := getStructuringElement MORPH_ELLIPSE (2, 2)%Z in
  let closed := morphologyEx thresh MORPH_CLOSE kernel 1 in
  let final := medianBlur (polarity_correction closed).1 3 in
  let enc := λ g, img_to_base64 (cvtColor g COLOR_GRAY2BGR) ".jpg" in
  ∃ steps,
    run_pipeline img_bytes = Ok {[ "steps" := VList steps ]}
    ∧ labelled steps 1 = Some ("① Grayscale", enc gray)
    ∧ labelled steps 2 = Some ("② Bilateral Filter", enc bilateral)
    ∧ labelled steps 3 = Some ("③ CLAHE", enc enhanced)
    ∧ labelled steps 4 = Some ("④ Adaptive Threshold", enc thresh)
    ∧ labelled steps 5 = Some ("⑤ Morphological Close", enc closed)
    ∧ labelled steps 6 = Some ("⑥ Final Cleanup", enc final)
    ∧ (clipLimit clahe == 3)%Q
    ∧ tileGridSize clahe = (8, 8)%Z.
Proof.
  intros Hdec. pose proof (run_pipeline_steps _ _ Hdec) as Hrun.
  cbv zeta in Hrun. cbv zeta. eexists. split; [exact Hrun |].
  repeat split.
Qed.

End StageClaims.

(** *** Encoding of the steps *)

Lemma has_char_get (s : string) (i : nat) (c : ascii) :
  String.get i s = Some c → has_char c s = true.
Proof.
  revert i. induction s as [|a s IH]; intros i; [by destruct i |].
  destruct i as [|i]; cbn [String.get has_char].
  - intros [= ->]. by rewrite Ascii.eqb_refl.
  - intros Hget. rewrite (IH _ Hget). apply orb_true_r.
Qed.

Lemma is_b64_char_b64_char (n : N) : is_b64_char (b64_char n) = true.
Proof.
  unfold is_b64_char, b64_char.
  destruct (String.get (N.to_nat n) b64_alphabet) as [c|] eqn:Hget.
  - by rewrite (has_char_get _ _ _ Hget).
  - reflexivity.
Qed.

Lemma list_ind3 {A} (P : list A → Prop) :
  P [] → (∀ a, P [a]) → (∀ a b, P [a; b]) →
  (∀ a b c l, P l → P (a :: b :: c :: l)) →
  ∀ l, P l.
Proof.
  intros H0 H1 H2 H3. fix IH 1.
  intros [|a [|b [|c l]]]; [exact H0 | apply H1 | apply H2 |].
  apply H3, IH.
Qed.

(** The output of [b64encode] is a text over the base64 alphabet, four
    characters for every group of up to three bytes. *)
Lemma b64encode_alphabet (buf : list byte) :
  string_all is_b64_char (b64encode buf) = true.
Proof.
  induction buf as [|a|a b|a b c l IH] using list_ind3;
    cbn [b64encode string_all];
    rewrite ?is_b64_char_b64_char, ?IH; reflexivity.
Qed.

Section EncodingClaim.
Context {cv : Cv2}.

Lemma img_to_base64_jpg (img : Mat) :
  match imencode ".jpg" img with
  | Some buf =>
      img_to_base64 img ".jpg" = "data:image/jpeg;base64," +:+ b64encode buf
      ∧ string_all is_b64_char (b64encode buf) = true
  | None => img_to_base64 img ".jpg" = EmptyString
  end.
Proof.
  unfold img_to_base64. destruct (imencode ".jpg" img) as [buf|].
  - split; [reflexivity | apply b64encode_alphabet].
  - reflexivity.
Qed.

(** C9 (amended). Every raster that [run_pipeline] encodes has three
    channels: the decoded input as it is, and each single-channel
    intermediate after [COLOR_GRAY2BGR].  The ["image"] entry of a step is
    the empty string when the codec reports failure on its raster;
    otherwise it is the text "data:image/jpeg;base64," followed by the
    base64 text of the bytes that the codec returned for the format
    ".jpg". *)
Theorem step_images_encoded `{!Cv2Laws cv} (img_bytes : list byte)
    (result : gmap string PyVal) (steps : list PyVal) :
  run_pipeline img_bytes = Ok result →
  result !! "steps" = Some (VList steps) →
  Forall (λ s, ∃ r,
    channels r = 3%N
    ∧ field "image" s = Some (img_to_base64 r ".jpg")
    ∧ match imencode ".jpg" r with
      | Some buf =>
          img_to_base64 r ".jpg"
          = "data:image/jpeg;base64," +:+ b64encode buf
          ∧ string_all is_b64_char (b64encode buf) = true
      | None => img_to_base64 r ".jpg" = EmptyString
      end) steps.
Proof.
  intros Hrun Hsteps.
  destruct (imdecode (np_frombuffer img_bytes) IMREAD_COLOR)
    as [[original|] | e] eqn:Hdec.
  - rewrite (run_pipeline_steps _ _ Hdec) in Hrun. cbv zeta in Hrun.
    injection Hrun as <-.
    rewrite lookup_singleton_eq in Hsteps.
    injection Hsteps as <-.
    apply Forall_cons; split.
    { exists original. split; [by eapply imdecode_color_channels |].
      split; [reflexivity | apply img_to_base64_jpg]. }
    repeat (apply Forall_cons; split;
      [eexists (cvtColor _ COLOR_GRAY2BGR);
       split; [apply cvtColor_gray2bgr_channels |];
       split; [reflexivity | apply img_to_base64_jpg] |]).
    apply Forall_nil_2.
  - unfold run_pipeline in Hrun. rewrite Hdec in Hrun.
    injection Hrun as <-. discriminate.
  - unfold run_pipeline in Hrun. rewrite Hdec in Hrun. discriminate.
Qed.
End EncodingClaim.

(* ===================================================================== *)
(** ** Properties of the handler *)
(* ===================================================================== *)

(** Reading the body changes the input stream only. *)
Lemma rfile_read_outputs (n : Z) (self self1 : Handler) (body : list byte) :
  rfile_read n self = (Ok body, self1) →
  status self1 = status self
  ∧ sent_headers self1 = sent_headers self
  ∧ headers_ended self1 = headers_ended self
  ∧ wfile self1 = wfile self.
Proof.
  unfold rfile_read. destruct (n <? 0)%Z; intros [= _ <-]; repeat split.
Qed.

Section HandlerClaims.
Context {cv : Cv2} {py : PyStd}.

Lemma content_length_state (self : Handler) :
  ∃ r, content_length self = (r, self)
       ∧ ∀ rf, content_length (set_rfile rf self) = (r, set_rfile rf self).
Proof.
  unfold content_length, mbind, M_bind, get_self, lift, mret, M_ret.
  cbn [headers set_rfile].
  destruct (headers self !! "Content-Length"); eexists; split; reflexivity.
Qed.

Lemma rfile_read_state (n : Z) (self : Handler) :
  ∃ body rest, rfile_read n self = (Ok body, set_rfile rest self)
    ∧ body = (if (n <? 0)%Z then rfile self else take (Z.to_nat n) (rfile self))
    ∧ rest = (if (n <? 0)%Z then [] else drop (Z.to_nat n) (rfile self)).
Proof.
  unfold rfile_read. destruct (n <? 0)%Z; eexists _, _; repeat split.
Qed.

Lemma run_pipeline_ok_shape (img_bytes : list byte)
    (result : gmap string PyVal) :
  run_pipeline img_bytes = Ok result →
  (∃ steps, result = {[ "steps" := VList steps ]} ∧ length steps = 10%nat)
  ∨ result = {[ "error" := VStr "Failed to decode image" ]}.
Proof.
  destruct (imdecode (np_frombuffer img_bytes) IMREAD_COLOR)
    as [[original|] | e] eqn:Hdec.
  - rewrite (run_pipeline_steps _ _ Hdec). intros [= <-]. left.
    eexists. split; reflexivity.
  - unfold run_pipeline. rewrite Hdec. intros [= <-]. by right.
  - unfold run_pipeline. rewrite Hdec. discriminate.
Qed.

(** [do_GET] answers every request alike, whatever its path. *)
Lemma do_GET_answers_200 (page : string) (self : Handler) :
  ∃ self',
    do_GET page self = (Ok (), self')
    ∧ responded self self' 200 [("Content-Type", "text/html")] page.
Proof. eexists. split; [reflexivity |]. repeat split. Qed.

(** A POST to /process whose body cannot be turned into image bytes raises,
    and nothing has been sent at that point. *)
Lemma do_POST_process_raises (self self1 : Handler) (n : Z)
    (body : list byte) (e : PyExc) :
  path self = "/process" →
  content_length self = (Ok n, self) →
  rfile_read n self = (Ok body, self1) →
  json_loads body = Raise e
  ∨ (∃ data, json_loads body = Ok data
       ∧ (subscript data "image" = Raise e
          ∨ ∃ image, subscript data "image" = Ok image
               ∧ b64decode_value image = Raise e)) →
  do_POST self = (Raise e, self1)
  ∧ status self1 = status self
  ∧ sent_headers self1 = sent_headers self
  ∧ wfile self1 = wfile self.
Proof.
  intros Hpath Hlen Hread Hfail.
  destruct (rfile_read_outputs _ _ _ _ Hread) as (Hst & Hhd & _ & Hwf).
  split; [| by repeat split].
  unfold do_POST, mbind, M_bind, get_self.
  rewrite Hpath, String.eqb_refl. cbn [negb].
  rewrite Hlen, Hread. unfold lift.
  destruct Hfail as [-> | (data & -> & [-> | (image & -> & ->)])];
    reflexivity.
Qed.

(** Every POST request whose path is not "/process" is answered with
    status 404, no header of the handler's own and no payload; the request
    body is not read. *)
Lemma do_POST_unknown_path (self : Handler) :
  path self ≠ "/process" →
  ∃ self',
    do_POST self = (Ok (), self')
    ∧ status self' = Some 404%Z
    ∧ sent_headers self' = sent_headers self
    ∧ headers_ended self' = true
    ∧ wfile self' = wfile self
    ∧ rfile self' = rfile self.
Proof.
  intros Hpath. apply String.eqb_neq in Hpath.
  unfold do_POST, mbind, M_bind, get_self. rewrite Hpath. cbn [negb].
  eexists. split; [reflexivity |]. repeat split.
Qed.

(** C4 (the code at the failing input). A POST to /process whose body is
    a JSON object with an "image" entry holding base64 text is not always
    answered: when [run_pipeline] raises on the decoded bytes, as it does
    when they are empty, [do_POST] has printed its first line and raises the
    same exception, and no status line, no header and no payload has been
    sent. *)
Theorem do_POST_pipeline_raises (self self1 : Handler) (n : Z)
    (body : list byte) (data image : PyVal) (img_bytes : list byte)
    (e : PyExc) :
  path self = "/process" →
  content_length self = (Ok n, self) →
  rfile_read n self = (Ok body, self1) →
  json_loads body = Ok data →
  subscript data "image" = Ok image →
  b64decode_value image = Ok img_bytes →
  run_pipeline img_bytes = Raise e →
  ∃ self',
    do_POST self = (Raise e, self')
    ∧ status self' = status self
    ∧ sent_headers self' = sent_headers self
    ∧ headers_ended self' = headers_ended self
    ∧ wfile self' = wfile self
    ∧ stdout self' = stdout self ++
        [ "[Pipeline] Processing image (" +:+
            pretty (Z.of_nat (length img_bytes)) +:+ " bytes)..." ].
Proof.
  intros Hpath Hlen Hread Hjson Hsub Hb64 Hrun.
  destruct (rfile_read_state n self) as (body' & rest & Hread' & _ & _).
  rewrite Hread in Hread'. injection Hread' as _ ->.
  unfold do_POST, mbind, M_bind, get_self.
  rewrite Hpath, String.eqb_refl. cbn [negb].
  rewrite Hlen, Hread. unfold lift. rewrite Hjson, Hsub, Hb64.
  unfold print at 1. unfold modify at 1. cbv beta iota. rewrite Hrun.
  eexists. split; [reflexivity |]. by repeat split.
Qed.

(** X11. For every POST to /process whose body, the first Content-Length
    bytes of the stream, is a JSON object with an "image" entry that holds
    base64 text, and on whose decoded bytes [run_pipeline] returns, the
    handler answers with status 200, the header Content-Type:
    application/json, and the JSON text of the result as payload.  This
    holds whether the result carries ["steps"] or ["error"]: an error that
    the pipeline returns shows in the payload only. *)
Theorem do_POST_process_ok (self self1 : Handler) (n : Z) (body : list byte)
    (data image : PyVal) (img_bytes : list byte)
    (result : gmap string PyVal) :
  path self = "/process" →
  content_length self = (Ok n, self) →
  rfile_read n self = (Ok body, self1) →
  json_loads body = Ok data →
  subscript data "image" = Ok image →
  b64decode_value image = Ok img_bytes →
  run_pipeline img_bytes = Ok result →
  ∃ self',
    do_POST self = (Ok (), self')
    ∧ responded self self' 200 [("Content-Type", "application/json")]
        (json_dumps (VDict result))
    ∧ ((∃ steps, result = {[ "steps" := VList steps ]})
       ∨ result = {[ "error" := VStr "Failed to decode image" ]}).
Proof.
  intros Hpath Hlen Hread Hjson Hsub Hb64 Hrun.
  destruct (rfile_read_outputs _ _ _ _ Hread) as (Hst & Hhd & Hen & Hwf).
  unfold do_POST, mbind, M_bind, get_self.
  rewrite Hpath, String.eqb_refl. cbn [negb].
  rewrite Hlen, Hread. unfold lift. rewrite Hjson, Hsub, Hb64.
  unfold print at 1. unfold modify at 1. cbv beta iota. rewrite Hrun.
  destruct (run_pipeline_ok_shape _ _ Hrun) as [(steps & -> & _) | ->].
  - rewrite lookup_singleton_eq.
    rewrite bool_decide_eq_true_2 by eauto.
    unfold subscript. rewrite lookup_singleton_eq.
    cbn -[pretty String.append json_dumps].
    eexists. split; [reflexivity |]. split; [| eauto].
    unfold responded. cbn -[pretty String.append json_dumps].
    rewrite Hhd, Hwf. repeat split.
  - rewrite bool_decide_eq_false_2
      by (rewrite lookup_singleton_ne by done; apply is_Some_None).
    cbn -[pretty String.append json_dumps format_value].
    eexists. split; [reflexivity |]. split; [| eauto].
    unfold responded. cbn -[pretty String.append json_dumps format_value].
    rewrite Hhd, Hwf. repeat split.
Qed.
End HandlerClaims.

(* ===================================================================== *)
(** ** Concrete runs *)
(* ===================================================================== *)

Lemma raw_imdecode_channels (buf : list byte) (flags : ImreadModes)
    (img : Mat) :
  raw_imdecode buf flags = Ok (Some img) → channels img = 3%N.
Proof.
  unfold raw_imdecode. destruct buf as [|w [|h px]]; try discriminate.
  case_bool_decide; [| discriminate]. by intros [= <-].
Qed.

Lemma raw_cv_laws : Cv2Laws raw_cv.
Proof.
  split; [intros buf img; apply raw_imdecode_channels | reflexivity].
Qed.

Lemma failing_codec_cv_laws : Cv2Laws failing_codec_cv.
Proof.
  split; [intros buf img; apply raw_imdecode_channels | reflexivity].
Qed.

(** C1, as stated, fails: the white pixel decodes, and the run on it returns
    ten steps, not nine. *)
Lemma nine_steps_counterexample :
  @imdecode raw_cv (np_frombuffer white_pixel) IMREAD_COLOR
  = Ok (Some white_pixel_raster)
  ∧ ∃ steps,
      @run_pipeline raw_cv white_pixel = Ok {[ "steps" := VList steps ]}
      ∧ length steps = 10%nat
      ∧ length steps ≠ 9%nat.
Proof.
  split; [reflexivity |].
  pose proof (run_pipeline_steps (cv:=raw_cv) white_pixel _ eq_refl) as Hrun.
  cbv zeta in Hrun. eexists. split; [exact Hrun |].
  split; [reflexivity | discriminate].
Qed.

Lemma run_pipeline_ten_steps_witness :
  @imdecode raw_cv (np_frombuffer white_pixel) IMREAD_COLOR
  = Ok (Some white_pixel_raster)
  ∧ ∃ steps,
      @run_pipeline raw_cv white_pixel = Ok {[ "steps" := VList steps ]}
      ∧ length steps = 10%nat
      ∧ field "name" <$> steps = Some <$> step_names.
Proof.
  split; [reflexivity |].
  destruct (run_pipeline_ten_steps (cv:=raw_cv) white_pixel
              white_pixel_raster eq_refl)
    as (steps & note & Hrun & Hlen & Hnames & _).
  exists steps. repeat split; assumption.
Defined.

Lemma run_pipeline_decode_outcomes_witness :
  (@imdecode raw_cv (np_frombuffer []) IMREAD_COLOR = Raise CvError
   ∧ @imdecode raw_cv (np_frombuffer [x01]) IMREAD_COLOR = Ok None)
  ∧ @run_pipeline raw_cv [] = Raise CvError
  ∧ @run_pipeline raw_cv [x01]
    = Ok {[ "error" := VStr "Failed to decode image" ]}.
Proof.
  split; [by split |]. split.
  - exact (proj1 (run_pipeline_decode_outcomes (cv:=raw_cv) [])
             CvError eq_refl).
  - exact (proj1 (proj2 (run_pipeline_decode_outcomes (cv:=raw_cv) [x01]))
             eq_refl).
Defined.

(** C10, as stated, fails: with a codec that reports failure the white pixel
    decodes and its "Original" step comes first, but the image of that step
    is the empty string, not an encoding of the input raster. *)
Lemma original_image_empty_on_codec_failure :
  @imdecode failing_codec_cv (np_frombuffer white_pixel) IMREAD_COLOR
  = Ok (Some white_pixel_raster)
  ∧ @imencode failing_codec_cv ".jpg" white_pixel_raster = None
  ∧ ∃ rest,
      @run_pipeline failing_codec_cv white_pixel =
        Ok {[ "steps" := VList
           (step_dict "Original" "Input image as received (1×1)" EmptyString
              :: rest) ]}.
Proof.
  split; [reflexivity |]. split; [reflexivity |].
  pose proof (run_pipeline_steps (cv:=failing_codec_cv) white_pixel _ eq_refl)
    as Hrun.
  cbv zeta in Hrun. eexists. exact Hrun.
Qed.

Lemma original_step_first_witness :
  (∃ original,
     @imdecode raw_cv (np_frombuffer wide_image) IMREAD_COLOR
     = Ok (Some original)
     ∧ cols original = 3%N ∧ rows original = 2%N)
  ∧ ∃ rest,
      @run_pipeline raw_cv wide_image =
        Ok {[ "steps" := VList
           (step_dict "Original" "Input image as received (3×2)"
              ("data:image/jpeg;base64," +:+
               b64encode ([x03; x02] ++ replicate 18 x40))
              :: rest) ]}.
Proof.
  split; [eexists; repeat split |].
  destruct (original_step_first (cv:=raw_cv) wide_image _ eq_refl)
    as (image & rest & Hrun & Himage & _).
  exists rest. rewrite Hrun, Himage. reflexivity.
Defined.

Lemma polarity_correction_step_witness :
  (@imdecode raw_cv (np_frombuffer white_pixel) IMREAD_COLOR
   = Ok (Some white_pixel_raster)
   ∧ data black_raster ≠ [] ∧ Forall (λ p, p = 0%Z) (data black_raster)
   ∧ (white_fraction black_raster < 0.5)%Q
   ∧ data white_raster ≠ [] ∧ Forall (λ p, p = 255%Z) (data white_raster)
   ∧ ¬ (white_fraction white_raster < 0.5)%Q
   ∧ (0 ≤ 200 ≤ 255)%Z)
  ∧ (∃ steps closed,
       @run_pipeline raw_cv white_pixel = Ok {[ "steps" := VList steps ]}
       ∧ field "description" <$> steps !! 6%nat
         = Some (Some (final_description (polarity_correction closed).2)))
  ∧ polarity_correction black_raster
    = (white_raster, " (inverted — detected dark background)")
  ∧ polarity_correction white_raster
    = (white_raster, " (no inversion needed)")
  ∧ not_u8 200 = 55%Z.
Proof.
  assert (Forall (λ p, p = 0%Z) (data black_raster)) as Hblack
    by (repeat constructor).
  assert (Forall (λ p, p = 255%Z) (data white_raster)) as Hwhite
    by (repeat constructor).
  assert (data black_raster ≠ []) as Hne by discriminate.
  assert (data white_raster ≠ []) as Hne' by discriminate.
  assert (white_fraction black_raster < 0.5)%Q as Hlt by reflexivity.
  assert (¬ (white_fraction white_raster < 0.5)%Q) as Hge by discriminate.
  assert (0 ≤ 200 ≤ 255)%Z as Hp by lia.
  destruct (polarity_correction_step (cv:=raw_cv))
    as (Hstep & Hinv & Hkeep & Hw & Hb & _ & Hnot & _).
  split; [by repeat split |].
  split.
  { destruct (Hstep white_pixel white_pixel_raster eq_refl)
      as (steps & closed & Hrun & _ & H6).
    exists steps, closed. split; [exact Hrun |]. by rewrite H6. }
  split; [exact (Hinv _ Hne Hlt) |].
  split; [exact (Hkeep _ Hne' Hge) |].
  exact (Hnot _ Hp).
Defined.

Lemma main_pipeline_stages_witness :
  @imdecode raw_cv (np_frombuffer white_pixel) IMREAD_COLOR
  = Ok (Some white_pixel_raster)
  ∧ ∃ steps,
      @run_pipeline raw_cv white_pixel = Ok {[ "steps" := VList steps ]}
      ∧ labelled steps 2
        = Some ("② Bilateral Filter", "data:image/jpeg;base64,AQH///8=")
      ∧ labelled steps 6
        = Some ("⑥ Final Cleanup", "data:image/jpeg;base64,AQH///8=").
Proof.
  split; [reflexivity |].
  destruct (main_pipeline_stages (cv:=raw_cv) white_pixel
              white_pixel_raster eq_refl)
    as (steps & Hrun & _ & H2 & _ & _ & _ & H6 & _).
  exists steps. split; [exact Hrun |]. split; [exact H2 | exact H6].
Defined.


(** C9, as stated, fails: with a codec that reports failure, the run on the
    white pixel returns ten steps whose images are all the empty string,
    which is not a data URL. *)
Lemma failing_codec_images_empty :
  Cv2Laws failing_codec_cv
  ∧ ∃ steps,
      @run_pipeline failing_codec_cv white_pixel
      = Ok {[ "steps" := VList steps ]}
      ∧ length steps = 10%nat
      ∧ Forall (λ s,
          field "image" s = Some EmptyString
          ∧ ¬ ∃ payload,
                field "image" s
                = Some ("data:image/jpeg;base64," +:+ payload)) steps.
Proof.
  split; [exact failing_codec_cv_laws |].
  pose proof (run_pipeline_steps (cv:=failing_codec_cv) white_pixel _ eq_refl)
    as Hrun.
  cbv zeta in Hrun. eexists. split; [exact Hrun |].
  split; [reflexivity |].
  repeat (apply Forall_cons; split;
          [split; [reflexivity | intros [payload [=]]] |]).
  apply Forall_nil_2.
Qed.

Lemma step_images_encoded_witness :
  Cv2Laws raw_cv
  ∧ ∃ result steps,
      @run_pipeline raw_cv white_pixel = Ok result
      ∧ result !! "steps" = Some (VList steps)
      ∧ Forall (λ s, ∃ r,
          channels r = 3%N
          ∧ field "image" s = Some (@img_to_base64 raw_cv r ".jpg")) steps.
Proof.
  split; [exact raw_cv_laws |].
  pose proof (run_pipeline_steps (cv:=raw_cv) white_pixel _ eq_refl) as Hrun.
  cbv zeta in Hrun. eexists _, _. split; [exact Hrun |].
  split; [apply lookup_singleton_eq |].
  pose proof (step_images_encoded (cv:=raw_cv) (Cv2Laws0:=raw_cv_laws)
                white_pixel _ _ Hrun (lookup_singleton_eq _ _)) as Hall.
  eapply Forall_impl; [exact Hall |].
  intros s (r & Hch & Himg & _). exists r. by split.
Defined.

(** C2 (the code at the failing input). [do_GET] does not look at the
    path: the GET of /process is answered 200 with the page, whatever the
    page is, and never 404, while [do_POST] answers 404 on a path it does
    not know. *)
Lemma get_process_answers_200 :
  command get_process_request = "GET"
  ∧ path get_process_request = "/process"
  ∧ ¬ ∃ page self',
        do_GET page get_process_request = (Ok (), self')
        ∧ status self' = Some 404%Z.
Proof.
  split; [reflexivity |]. split; [reflexivity |].
  intros (page & self' & Hrun & Hstatus).
  destruct (do_GET_answers_200 page get_process_request)
    as (self'' & Hrun' & Hstatus' & _).
  rewrite Hrun in Hrun'. injection Hrun' as ->. congruence.
Qed.

Lemma do_POST_pipeline_raises_witness :
  (path empty_image_request = "/process"
   ∧ @json_loads tiny_py empty_image_body
     = Ok (VDict {[ "image" := VStr EmptyString ]})
   ∧ @b64decode tiny_py EmptyString = Ok []
   ∧ @run_pipeline raw_cv [] = Raise CvError)
  ∧ ∃ self',
      @do_POST raw_cv tiny_py empty_image_request = (Raise CvError, self')
      ∧ status self' = None
      ∧ sent_headers self' = []
      ∧ wfile self' = EmptyString
      ∧ stdout self' = ["[Pipeline] Processing image (0 bytes)..."].
Proof.
  assert (@json_loads tiny_py empty_image_body
          = Ok (VDict {[ "image" := VStr EmptyString ]}))
    as Hjson by (vm_compute; reflexivity).
  split; [by repeat split |].
  destruct (do_POST_pipeline_raises (cv:=raw_cv) (py:=tiny_py)
              empty_image_request (set_rfile [] empty_image_request)
              (Z.of_nat (length empty_image_body)) empty_image_body
              (VDict {[ "image" := VStr EmptyString ]})
              (VStr EmptyString) [] CvError)
    as (self' & Hrun & Hst & Hhd & _ & Hwf & Hout);
    [reflexivity | vm_compute; reflexivity | vm_compute; reflexivity
    | exact Hjson | reflexivity | reflexivity | reflexivity |].
  exists self'. by repeat split.
Defined.

Lemma do_POST_process_ok_witness :
  (path white_pixel_request = "/process"
   ∧ @json_loads tiny_py white_pixel_body
     = Ok (VDict {[ "image" := VStr (b64encode white_pixel) ]})
   ∧ @b64decode tiny_py (b64encode white_pixel) = Ok white_pixel)
  ∧ ∃ self',
      @do_POST raw_cv tiny_py white_pixel_request = (Ok (), self')
      ∧ status self' = Some 200%Z
      ∧ sent_headers self' = [("Content-Type", "application/json")].
Proof.
  assert (@json_loads tiny_py white_pixel_body
          = Ok (VDict {[ "image" := VStr (b64encode white_pixel) ]}))
    as Hjson by (vm_compute; reflexivity).
  assert (@b64decode tiny_py (b64encode white_pixel) = Ok white_pixel)
    as Hb64 by (vm_compute; reflexivity).
  split; [repeat split; assumption |].
  destruct (@run_pipeline raw_cv white_pixel) as [result | e] eqn:Hres;
    [| discriminate Hres].
  destruct (do_POST_process_ok (cv:=raw_cv) (py:=tiny_py)
              white_pixel_request (set_rfile [] white_pixel_request)
              (Z.of_nat (length white_pixel_body)) white_pixel_body
              (VDict {[ "image" := VStr (b64encode white_pixel) ]})
              (VStr (b64encode white_pixel)) white_pixel result)
    as (self' & Hrun & (Hst & Hhd & _) & _);
    [reflexivity | vm_compute; reflexivity | vm_compute; reflexivity
    | exact Hjson | reflexivity | exact Hb64 | exact Hres |].
  exists self'. repeat split; assumption.
Defined.

(* ===================================================================== *)
(** ** Further properties: the encoder wrapper *)
(* ===================================================================== *)

Lemma b64_index_pad : b64_index b64_pad b64_alphabet 0 = 64%N.
Proof. reflexivity. Qed.

Lemma b64_index_char (n : N) :
  (n < 64)%N → b64_index (b64_char n) b64_alphabet 0 = n.
Proof.
  intros Hn. rewrite <- (N2Nat.id n).
  assert (N.to_nat n < 64)%nat as Hk by lia.
  generalize dependent (N.to_nat n). clear Hn. intros k Hk.
  do 64 (destruct k as [|k]; [reflexivity |]). lia.
Qed.

Lemma byte_of_N_to_N (a : byte) (k : N) :
  byte_of_N (k * 256 + Byte.to_N a) = a.
Proof.
  unfold byte_of_N. pose proof (Byte.to_N_bounded a).
  replace ((k * 256 + Byte.to_N a) mod 256)%N with (Byte.to_N a).
  - by rewrite Byte.of_to_N.
  - symmetry. rewrite N.add_comm, N.Div0.mod_add. apply N.mod_small. lia.
Qed.

Lemma byte_of_N_eq (a : byte) (n k : N) :
  n = (k * 256 + Byte.to_N a)%N → byte_of_N n = a.
Proof. intros ->. apply byte_of_N_to_N. Qed.

(** Decoding the text of [b64encode] gives the bytes back. *)
Lemma b64_round_trip (buf : list byte) :
  strict_b64decode (b64encode buf) = Ok buf.
Proof.
  unfold strict_b64decode.
  induction buf as [|a|a b|a b c l IH] using list_ind3.
  - reflexivity.
  - pose proof (Byte.to_N_bounded a) as Ha.
    cbn [b64encode list_ascii_of_string map b64_groups].
    rewrite !b64_index_char, !b64_index_pad by div_lia.
    rewrite !(proj2 (N.ltb_lt _ _)) by div_lia. cbn.
    do 2 f_equal. apply (byte_of_N_eq _ _ 0). div_lia.
  - pose proof (Byte.to_N_bounded a) as Ha.
    pose proof (Byte.to_N_bounded b) as Hb.
    cbn [b64encode list_ascii_of_string map b64_groups].
    rewrite !b64_index_char, !b64_index_pad by div_lia.
    rewrite !(proj2 (N.ltb_lt _ _)) by div_lia. cbn.
    do 2 f_equal; [| f_equal].
    + apply (byte_of_N_eq _ _ 0). div_lia.
    + apply (byte_of_N_eq _ _ (Byte.to_N a mod 4)). div_lia.
  - pose proof (Byte.to_N_bounded a) as Ha.
    pose proof (Byte.to_N_bounded b) as Hb.
    pose proof (Byte.to_N_bounded c) as Hc.
    cbn [b64encode list_ascii_of_string map b64_groups].
    rewrite !b64_index_char by div_lia.
    rewrite !(proj2 (N.ltb_lt _ _)) by div_lia. cbn [andb].
    rewrite IH. do 2 f_equal; [| f_equal; [| f_equal]].
    + apply (byte_of_N_eq _ _ 0). div_lia.
    + apply (byte_of_N_eq _ _ (Byte.to_N a mod 4)). div_lia.
    + apply (byte_of_N_eq _ _ (Byte.to_N b mod 16)). div_lia.
Qed.

Lemma b64encode_inj (buf1 buf2 : list byte) :
  b64encode buf1 = b64encode buf2 → buf1 = buf2.
Proof.
  intros Heq. pose proof (b64_round_trip buf1) as H1.
  rewrite Heq, b64_round_trip in H1. congruence.
Qed.

Lemma b64encode_length (buf : list byte) :
  String.length (b64encode buf) = (4 * ((length buf + 2) / 3))%nat.
Proof.
  induction buf as [|a|a b|a b c l IH] using list_ind3;
    [reflexivity | reflexivity | reflexivity |].
  cbn [b64encode String.length length]. rewrite IH.
  replace (S (S (S (length l))) + 2)%nat with (1 * 3 + (length l + 2))%nat
    by lia.
  rewrite Nat.div_add_l by lia. lia.
Qed.

Lemma string_app_inv_head (p s1 s2 : string) :
  p +:+ s1 = p +:+ s2 → s1 = s2.
Proof. induction p as [|c p IH]; cbn; [done |]. intros [= H]. auto. Qed.

Lemma string_length_app (s1 s2 : string) :
  String.length (s1 +:+ s2) = (String.length s1 + String.length s2)%nat.
Proof.
  induction s1 as [|c s1 IH]; [reflexivity |].
  change (S (String.length (s1 +:+ s2))
          = S (String.length s1 + String.length s2)).
  by rewrite IH.
Qed.

Section EncoderFacts.
Context {cv : Cv2}.

(** X1. The text returned by [img_to_base64] determines what the codec
    returned: two calls that return the same text, whatever the rasters and
    the formats, got the same answer from [imencode], the same bytes or the
    same failure.  A failed encoding is never mistaken for a successful
    one, and distinct compressed bytes never share a data URL. *)
Theorem img_to_base64_injective (img1 img2 : Mat) (fmt1 fmt2 : string) :
  img_to_base64 img1 fmt1 = img_to_base64 img2 fmt2 →
  imencode fmt1 img1 = imencode fmt2 img2.
Proof.
  unfold img_to_base64.
  destruct (imencode fmt1 img1) as [buf1|], (imencode fmt2 img2) as [buf2|];
    [| discriminate | discriminate | reflexivity].
  destruct (String.eqb fmt1 ".jpg"), (String.eqb fmt2 ".jpg");
    intros Heq; [| discriminate | discriminate |].
  - apply (string_app_inv_head "data:image/jpeg;base64,") in Heq.
    by rewrite (b64encode_inj _ _ Heq).
  - apply (string_app_inv_head "data:image/png;base64,") in Heq.
    by rewrite (b64encode_inj _ _ Heq).
Qed.

(** X2. The length of the text returned by [img_to_base64] for the format
    ".jpg" is 0 when the codec fails and otherwise 23, the length of
    "data:image/jpeg;base64,", plus four characters for every group of up
    to three bytes of the codec's output. *)
Theorem img_to_base64_length (img : Mat) :
  String.length (img_to_base64 img ".jpg") =
    match imencode ".jpg" img with
    | Some buf => (23 + 4 * ((length buf + 2) / 3))%nat
    | None => 0%nat
    end.
Proof.
  unfold img_to_base64. destruct (imencode ".jpg" img) as [buf|];
    [| reflexivity].
  change (if String.eqb ".jpg" ".jpg" then "image/jpeg" else "image/png")
    with "image/jpeg".
  change ("data:" +:+ "image/jpeg" +:+ ";base64," +:+ b64encode buf)
    with ("data:image/jpeg;base64," +:+ b64encode buf).
  rewrite string_length_app, b64encode_length. reflexivity.
Qed.
End EncoderFacts.

Lemma img_to_base64_injective_witness :
  @img_to_base64 raw_cv white_pixel_raster ".jpg"
  = @img_to_base64 raw_cv
      {| rows := 1; cols := 1; channels := 1; data := [255; 255; 255]%Z |}
      ".jpg"
  ∧ @imencode raw_cv ".jpg" white_pixel_raster
    = @imencode raw_cv ".jpg"
        {| rows := 1; cols := 1; channels := 1; data := [255; 255; 255]%Z |}.
Proof.
  split; [reflexivity |].
  exact (img_to_base64_injective (cv:=raw_cv) white_pixel_raster _
           ".jpg" ".jpg" eq_refl).
Defined.

(* ===================================================================== *)
(** ** Further properties: the inversion check *)
(* ===================================================================== *)

Lemma not_u8_range (p : Z) : is_u8 (not_u8 p).
Proof.
  unfold is_u8, not_u8.
  assert (Z.land (Z.lnot p) 255 = Z.lnot p mod 2 ^ 8)%Z as ->
    by (apply (Z.land_ones (Z.lnot p) 8); lia).
  pose proof (Z.mod_pos_bound (Z.lnot p) (2 ^ 8)). lia.
Qed.

Lemma not_u8_involutive (p : Z) : is_u8 p → not_u8 (not_u8 p) = p.
Proof.
  intros Hp. rewrite (not_u8_spec p Hp).
  rewrite not_u8_spec by (unfold is_u8 in Hp; lia). lia.
Qed.

Lemma bitwise_not_u8 (img : Mat) : u8_raster (bitwise_not img).
Proof.
  unfold u8_raster, bitwise_not. cbn [data].
  apply Forall_fmap, Forall_forall. intros p _. apply not_u8_range.
Qed.

Lemma bitwise_not_involutive (img : Mat) :
  u8_raster img → bitwise_not (bitwise_not img) = img.
Proof.
  destruct img as [r c ch d]. unfold u8_raster, bitwise_not. cbn [data rows cols channels].
  intros Hd. f_equal. induction Hd as [|p l Hp _ IH]; [reflexivity |].
  cbn [map]. by rewrite not_u8_involutive, IH.
Qed.

Lemma size_of_bitwise_not (img : Mat) : size_of (bitwise_not img) = size_of img.
Proof. unfold size_of, bitwise_not. cbn [data]. by rewrite length_map. Qed.

(** Inversion swaps the two sides of the midpoint: the elements above 127
    of the inverted raster are those of the raster that are not. *)
Lemma np_sum_gt_bitwise_not (img : Mat) :
  u8_raster img →
  np_sum_gt (bitwise_not img) 127 = (size_of img - np_sum_gt img 127)%Z.
Proof.
  unfold u8_raster, np_sum_gt, size_of, bitwise_not. cbn [data].
  induction 1 as [|p l Hp _ IH]; [reflexivity |].
  cbn [map]. rewrite !filter_cons. rewrite (not_u8_spec p Hp).
  unfold is_u8 in Hp.
  destruct (decide ((127 <? 255 - p)%Z = true)) as [H1 | H1];
    destruct (decide ((127 <? p)%Z = true)) as [H2 | H2];
    rewrite Z.ltb_lt in H1, H2; cbn [length]; lia.
Qed.

(** X3. On a raster of [uint8] elements the inversion check is idempotent,
    and its output is never majority-dark: at least half of the elements of
    the corrected raster are above 127, the corrected raster keeps the shape
    and the number of elements of its input, and a second check leaves it
    as it is, with the note "no inversion needed". *)
Theorem polarity_correction_idempotent (closed : Mat) :
  u8_raster closed →
  let final := (polarity_correction closed).1 in
  u8_raster final
  ∧ shape2 final = shape2 closed
  ∧ size_of final = size_of closed
  ∧ (size_of final ≤ 2 * np_sum_gt final 127)%Z
  ∧ polarity_correction final = (final, " (no inversion needed)").
Proof.
  intros Hu8. cbv zeta.
  assert (∀ img, (size_of img ≤ 2 * np_sum_gt img 127)%Z →
            polarity_correction img = (img, " (no inversion needed)"))
    as Hkeep.
  { intros img Hge. rewrite polarity_correction_cases.
    by rewrite bool_decide_eq_false_2 by lia. }
  rewrite polarity_correction_cases. case_bool_decide as Hlt; cbn [fst].
  - assert (size_of (bitwise_not closed)
            ≤ 2 * np_sum_gt (bitwise_not closed) 127)%Z as Hge.
    { rewrite size_of_bitwise_not, np_sum_gt_bitwise_not by done. lia. }
    split; [apply bitwise_not_u8 |]. split; [reflexivity |].
    split; [apply size_of_bitwise_not |]. split; [exact Hge | by apply Hkeep].
  - split; [exact Hu8 |]. split; [reflexivity |]. split; [reflexivity |].
    split; [lia | apply Hkeep; lia].
Qed.

(** X4. The inversion check normalises polarity: on a raster of [uint8]
    elements in which the elements above 127 are not exactly half, the
    raster and its inverse are corrected to the same raster.  When they are
    exactly half, neither is inverted, so the two outputs stay inverses of
    each other. *)
Theorem polarity_correction_normalises (closed : Mat) :
  u8_raster closed →
  ((2 * np_sum_gt closed 127)%Z ≠ size_of closed →
     (polarity_correction (bitwise_not closed)).1
     = (polarity_correction closed).1)
  ∧ ((2 * np_sum_gt closed 127)%Z = size_of closed →
       (polarity_correction closed).1 = closed
       ∧ (polarity_correction (bitwise_not closed)).1 = bitwise_not closed).
Proof.
  intros Hu8.
  pose proof (np_sum_gt_bitwise_not closed Hu8) as Hcount.
  pose proof (size_of_bitwise_not closed) as Hsize.
  rewrite !polarity_correction_cases. rewrite Hcount, Hsize.
  split; intros Hhalf.
  - case_bool_decide as H1; case_bool_decide as H2; cbn [fst];
      [lia | by apply bitwise_not_involutive | reflexivity | lia].
  - rewrite !bool_decide_eq_false_2 by lia. by split.
Qed.

Lemma polarity_correction_idempotent_witness :
  u8_raster black_raster
  ∧ polarity_correction (polarity_correction black_raster).1
    = (white_raster, " (no inversion needed)").
Proof.
  assert (u8_raster black_raster) as Hu8
    by (repeat constructor; unfold is_u8; lia).
  split; [exact Hu8 |].
  destruct (polarity_correction_idempotent black_raster Hu8)
    as (_ & _ & _ & _ & Hidem).
  exact Hidem.
Defined.

Lemma polarity_correction_normalises_witness :
  (u8_raster black_raster
   ∧ (2 * np_sum_gt black_raster 127)%Z ≠ size_of black_raster)
  ∧ (polarity_correction (bitwise_not black_raster)).1
    = (polarity_correction black_raster).1.
Proof.
  assert (u8_raster black_raster) as Hu8
    by (repeat constructor; unfold is_u8; lia).
  assert ((2 * np_sum_gt black_raster 127)%Z ≠ size_of black_raster) as Hne
    by discriminate.
  split; [by split |].
  exact (proj1 (polarity_correction_normalises black_raster Hu8) Hne).
Defined.

(* ===================================================================== *)
(** ** Further properties: the list of steps *)
(* ===================================================================== *)

Lemma step_dict_keys (n d i : string) :
  ∃ m, step_dict n d i = VDict m
       ∧ dom m = ({[ "name"; "description"; "image" ]} : gset string)
       ∧ m !! "name" = Some (VStr n)
       ∧ m !! "description" = Some (VStr d)
       ∧ m !! "image" = Some (VStr i).
Proof.
  eexists. split; [reflexivity |].
  split; [| repeat split].
  rewrite !dom_insert_L, dom_singleton_L. reflexivity.
Qed.

(** X5. Every element of the list that [run_pipeline] returns under
    ["steps"] is a dictionary with exactly the three keys ["name"],
    ["description"] and ["image"], each holding a string, whatever the
    library answers and also when the codec fails. *)
Theorem run_pipeline_step_keys `{cv : Cv2} (img_bytes : list byte)
    (result : gmap string PyVal) (steps : list PyVal) :
  run_pipeline img_bytes = Ok result →
  result !! "steps" = Some (VList steps) →
  Forall (λ s, ∃ m name description image,
    s = VDict m
    ∧ dom m = ({[ "name"; "description"; "image" ]} : gset string)
    ∧ m !! "name" = Some (VStr name)
    ∧ m !! "description" = Some (VStr description)
    ∧ m !! "image" = Some (VStr image)) steps.
Proof.
  intros Hrun Hsteps.
  destruct (imdecode (np_frombuffer img_bytes) IMREAD_COLOR)
    as [[original|] | e] eqn:Hdec.
  - rewrite (run_pipeline_steps _ _ Hdec) in Hrun. cbv zeta in Hrun.
    injection Hrun as <-.
    rewrite lookup_singleton_eq in Hsteps. injection Hsteps as <-.
    repeat (apply Forall_cons; split;
      [match goal with
       | |- ∃ m _ _ _, step_dict ?n ?d ?i = _ ∧ _ =>
           destruct (step_dict_keys n d i) as (m & Hm & Hdom & H1 & H2 & H3);
           exists m, n, d, i; by repeat split
       end |]).
    apply Forall_nil_2.
  - unfold run_pipeline in Hrun. rewrite Hdec in Hrun.
    injection Hrun as <-. discriminate.
  - unfold run_pipeline in Hrun. rewrite Hdec in Hrun. discriminate.
Qed.

(** X6. The labels do not depend on the codec: for two libraries that
    answer every call but [imencode] alike, the runs on the same bytes raise
    alike and fail alike, and when they succeed the names and the
    descriptions of their steps are the same, position by position.  A
    failing codec changes the images only. *)
Theorem step_labels_codec_independent (cv1 cv2 : Cv2)
    (img_bytes : list byte) :
  cv2_agree_filters cv1 cv2 →
  (∀ e, @run_pipeline cv1 img_bytes = Raise e
        ↔ @run_pipeline cv2 img_bytes = Raise e)
  ∧ ∀ result1 result2,
      @run_pipeline cv1 img_bytes = Ok result1 →
      @run_pipeline cv2 img_bytes = Ok result2 →
      result1 !! "error" = result2 !! "error"
      ∧ ∀ steps1 steps2,
          result1 !! "steps" = Some (VList steps1) →
          result2 !! "steps" = Some (VList steps2) →
          field "name" <$> steps1 = field "name" <$> steps2
          ∧ field "description" <$> steps1
            = field "description" <$> steps2.
Proof.
  intros [].
  destruct (@imdecode cv1 (np_frombuffer img_bytes) IMREAD_COLOR)
    as [[original|] | e0] eqn:Hdec1.
  - assert (@imdecode cv2 (np_frombuffer img_bytes) IMREAD_COLOR
            = Ok (Some original)) as Hdec2 by congruence.
    rewrite (run_pipeline_steps (cv:=cv1) _ _ Hdec1).
    rewrite (run_pipeline_steps (cv:=cv2) _ _ Hdec2).
    cbv zeta. split; [by split |].
    intros result1 result2 [= <-] [= <-]. split; [reflexivity |].
    intros steps1 steps2. rewrite !lookup_singleton_eq.
    intros [= <-] [= <-]. split; [reflexivity |].
    cbn [fmap list_fmap]. rewrite !field_description_step_dict.
    rewrite !filters_morphologyEx0, !filters_getStructuringElement0,
      !filters_adaptiveThreshold0, !filters_clahe_apply0,
      !filters_bilateralFilter0, !filters_cvtColor0.
    reflexivity.
  - assert (@imdecode cv2 (np_frombuffer img_bytes) IMREAD_COLOR = Ok None)
      as Hdec2 by congruence.
    unfold run_pipeline. rewrite Hdec1, Hdec2. split; [by split |].
    intros result1 result2 [= <-] [= <-]. split; [reflexivity |].
    intros steps1 steps2 [=].
  - assert (@imdecode cv2 (np_frombuffer img_bytes) IMREAD_COLOR = Raise e0)
      as Hdec2 by congruence.
    unfold run_pipeline. rewrite Hdec1, Hdec2. split; [by split |].
    intros result1 result2 [=].
Qed.

Lemma run_pipeline_step_keys_witness :
  (∃ result steps,
     @run_pipeline raw_cv white_pixel = Ok result
     ∧ result !! "steps" = Some (VList steps)
     ∧ length steps = 10%nat
     ∧ Forall (λ s, ∃ m,
         s = VDict m
         ∧ dom m = ({[ "name"; "description"; "image" ]} : gset string))
         steps).
Proof.
  pose proof (run_pipeline_steps (cv:=raw_cv) white_pixel _ eq_refl) as Hrun.
  cbv zeta in Hrun. eexists _, _. split; [exact Hrun |].
  split; [apply lookup_singleton_eq |]. split; [reflexivity |].
  pose proof (run_pipeline_step_keys (cv:=raw_cv) white_pixel _ _ Hrun
                (lookup_singleton_eq _ _)) as Hall.
  eapply Forall_impl; [exact Hall |].
  intros s (m & _ & _ & _ & Hs & Hdom & _). exists m. by split.
Defined.

Lemma raw_failing_agree_filters : cv2_agree_filters raw_cv failing_codec_cv.
Proof. by split. Qed.

Lemma step_labels_codec_independent_witness :
  cv2_agree_filters raw_cv failing_codec_cv
  ∧ (@run_pipeline raw_cv [] = Raise CvError
     ↔ @run_pipeline failing_codec_cv [] = Raise CvError)
  ∧ ∃ steps1 steps2,
      @run_pipeline raw_cv white_pixel = Ok {[ "steps" := VList steps1 ]}
      ∧ @run_pipeline failing_codec_cv white_pixel
        = Ok {[ "steps" := VList steps2 ]}
      ∧ field "name" <$> steps1 = field "name" <$> steps2
      ∧ field "description" <$> steps1 = field "description" <$> steps2.
Proof.
  split; [exact raw_failing_agree_filters |]. split.
  - exact (proj1 (step_labels_codec_independent raw_cv failing_codec_cv
                    [] raw_failing_agree_filters) CvError).
  - pose proof (run_pipeline_steps (cv:=raw_cv) white_pixel _ eq_refl)
      as Hrun1.
    pose proof (run_pipeline_steps (cv:=failing_codec_cv) white_pixel _
                  eq_refl) as Hrun2.
    cbv zeta in Hrun1, Hrun2. eexists _, _.
    split; [exact Hrun1 |]. split; [exact Hrun2 |].
    exact (proj2 (proj2 (step_labels_codec_independent raw_cv
                           failing_codec_cv white_pixel
                           raw_failing_agree_filters) _ _ Hrun1 Hrun2)
             _ _ (lookup_singleton_eq _ _) (lookup_singleton_eq _ _)).
Defined.

(* ===================================================================== *)
(** ** Further properties: the handler *)
(* ===================================================================== *)

Section HandlerFacts.
Context {cv : Cv2} {py : PyStd}.

(** X7. [do_POST] answers all or nothing.  When it returns, it has sent
    either 404 with no header and no payload (the path is not "/process")
    or 200 with Content-Type: application/json and the JSON text of one
    pipeline result (the path is "/process").  When it raises, the path is
    "/process" and nothing has been sent: no status line, no header, no
    payload; it has printed nothing, or only its first line when the
    exception comes out of [run_pipeline]. *)
Theorem do_POST_all_or_nothing (self : Handler) :
  match do_POST self with
  | (Ok _, self') =>
      (path self ≠ "/process"
       ∧ status self' = Some 404%Z
       ∧ sent_headers self' = sent_headers self
       ∧ wfile self' = wfile self)
      ∨ (path self = "/process"
         ∧ ∃ img_bytes result,
             run_pipeline img_bytes = Ok result
             ∧ responded self self' 200
                 [("Content-Type", "application/json")]
                 (json_dumps (VDict result)))
  | (Raise e, self') =>
      path self = "/process"
      ∧ status self' = status self
      ∧ sent_headers self' = sent_headers self
      ∧ headers_ended self' = headers_ended self
      ∧ wfile self' = wfile self
      ∧ (stdout self' = stdout self
         ∨ ∃ img_bytes,
             run_pipeline img_bytes = Raise e
             ∧ stdout self' = stdout self ++
                 [ "[Pipeline] Processing image (" +:+
                     pretty (Z.of_nat (length img_bytes)) +:+ " bytes)..." ])
  end.
Proof.
  destruct (content_length_state self) as (rlen & Hlen & _).
  unfold do_POST, mbind, M_bind, get_self.
  destruct (String.eqb_spec (path self) "/process") as [Hpath | Hpath];
    cbn [negb].
  2: { left. by repeat split. }
  rewrite Hlen. destruct rlen as [n | e]; [| repeat split; first [done | by left]].
  destruct (rfile_read_state n self) as (body & rest & Hread & _ & _).
  rewrite Hread. unfold lift.
  destruct (json_loads body) as [data | e]; [| repeat split; first [done | by left]].
  destruct (subscript data "image") as [image | e];
    [| repeat split; first [done | by left]].
  destruct (b64decode_value image) as [img_bytes | e];
    [| repeat split; first [done | by left]].
  unfold print at 1. unfold modify at 1. cbv beta iota.
  destruct (run_pipeline img_bytes) as [result | e] eqn:Hrun.
  2: { repeat split; [done |]. right. exists img_bytes. by split. }
  destruct (run_pipeline_ok_shape _ _ Hrun) as [(steps & -> & _) | ->].
  - rewrite lookup_singleton_eq.
    rewrite bool_decide_eq_true_2 by eauto.
    unfold subscript. rewrite lookup_singleton_eq.
    cbn -[pretty String.append json_dumps].
    right. split; [done |]. eexists img_bytes, _. split; [exact Hrun |].
    by repeat split.
  - rewrite bool_decide_eq_false_2
      by (rewrite lookup_singleton_ne by done; apply is_Some_None).
    cbn -[pretty String.append json_dumps format_value].
    right. split; [done |]. eexists img_bytes, _. split; [exact Hrun |].
    by repeat split.
Qed.

(** X8. What a POST to /process raises follows the shape of the JSON value
    of its body: [TypeError] when the value is not an object, [KeyError]
    of "image" when the object has no such entry, [TypeError] when the entry
    is not a string, and whatever [base64.b64decode] raises on the string
    otherwise.  In each case the body has been read and nothing has been
    sent. *)
Theorem do_POST_body_shape_errors (self self1 : Handler) (n : Z)
    (body : list byte) (data : PyVal) :
  path self = "/process" →
  content_length self = (Ok n, self) →
  rfile_read n self = (Ok body, self1) →
  json_loads body = Ok data →
  match data with
  | VDict d =>
      match d !! "image" with
      | None => do_POST self = (Raise (KeyError "image"), self1)
      | Some (VStr s) =>
          ∀ e, b64decode s = Raise e → do_POST self = (Raise e, self1)
      | Some _ => do_POST self = (Raise TypeError, self1)
      end
  | _ => do_POST self = (Raise TypeError, self1)
  end.
Proof.
  intros Hpath Hlen Hread Hjson.
  assert (∀ e,
    subscript data "image" = Raise e
    ∨ (∃ image, subscript data "image" = Ok image
         ∧ b64decode_value image = Raise e) →
    do_POST self = (Raise e, self1)) as Hraise.
  { intros e Hfail.
    apply (do_POST_process_raises self self1 n body e Hpath Hlen Hread).
    right. exists data. by split. }
  destruct data as [| b | z | s | l | d]; try (apply Hraise; by left).
  destruct (d !! "image") as [image|] eqn:Himg.
  - assert (subscript (VDict d) "image" = Ok image) as Hsub
      by (unfold subscript; by rewrite Himg).
    destruct image as [| b | z | s | l | d'];
      try (apply Hraise; right; eexists; by split).
    intros e He. apply Hraise. right. eexists. by split.
  - apply Hraise. left. unfold subscript. by rewrite Himg.
Qed.

(** X9. The handler reads exactly Content-Length bytes: when the stream
    holds at least that many, the bytes that follow them have no effect on
    the outcome, on what is sent or on what is printed, and they are left
    in the stream, untouched, after a POST to /process. *)
Theorem do_POST_ignores_trailing_bytes (self : Handler) (n : Z)
    (extra : list byte) :
  content_length self = (Ok n, self) →
  (0 ≤ n ≤ Z.of_nat (length (rfile self)))%Z →
  (do_POST self).1 = (do_POST (set_rfile (rfile self ++ extra) self)).1
  ∧ same_outputs (do_POST self).2
      (do_POST (set_rfile (rfile self ++ extra) self)).2
  ∧ (path self = "/process" →
       rfile (do_POST self).2 = drop (Z.to_nat n) (rfile self)
       ∧ rfile (do_POST (set_rfile (rfile self ++ extra) self)).2
         = drop (Z.to_nat n) (rfile self) ++ extra).
Proof.
  intros Hlen Hn.
  destruct (content_length_state self) as (rlen & Hlen' & Hlen2).
  rewrite Hlen in Hlen'. injection Hlen' as <-.
  specialize (Hlen2 (rfile self ++ extra)).
  unfold do_POST, mbind, M_bind, get_self. cbn [path set_rfile].
  destruct (String.eqb_spec (path self) "/process") as [Hpath | Hpath];
    cbn [negb].
  2: { by repeat split. }
  rewrite Hlen, Hlen2. unfold rfile_read.
  rewrite (proj2 (Z.ltb_ge n 0)) by lia. cbn [rfile set_rfile].
  rewrite take_app_le, drop_app_le by lia.
  unfold lift.
  destruct (json_loads (take (Z.to_nat n) (rfile self))) as [data | e];
    [| by repeat split].
  destruct (subscript data "image") as [image | e]; [| by repeat split].
  destruct (b64decode_value image) as [img_bytes | e]; [| by repeat split].
  unfold print, modify. cbv beta iota.
  destruct (run_pipeline img_bytes) as [result | e] eqn:Hrun;
    [| by repeat split].
  destruct (run_pipeline_ok_shape _ _ Hrun) as [(steps & -> & _) | ->].
  - rewrite lookup_singleton_eq.
    rewrite bool_decide_eq_true_2 by eauto.
    unfold subscript. rewrite lookup_singleton_eq.
    cbn -[pretty String.append json_dumps]. by repeat split.
  - rewrite bool_decide_eq_false_2
      by (rewrite lookup_singleton_ne by done; apply is_Some_None).
    cbn -[pretty String.append json_dumps format_value]. by repeat split.
Qed.

(** X10. A POST to /process on whose image bytes [run_pipeline] returns
    prints exactly three lines, in this order: the size of the decoded image
    bytes, the outcome of the pipeline, and the request log line of
    [log_message].  The outcome line is "Generated 10 steps" when the result
    carries steps and "Failed to decode image" when it carries the error;
    the fallback text "unknown error" is never printed. *)
Theorem do_POST_log_lines (self self1 : Handler) (n : Z) (body : list byte)
    (data image : PyVal) (img_bytes : list byte)
    (result : gmap string PyVal) :
  path self = "/process" →
  content_length self = (Ok n, self) →
  rfile_read n self = (Ok body, self1) →
  json_loads body = Ok data →
  subscript data "image" = Ok image →
  b64decode_value image = Ok img_bytes →
  run_pipeline img_bytes = Ok result →
  ∃ self',
    do_POST self = (Ok (), self')
    ∧ stdout self' = stdout self ++
        [ "[Pipeline] Processing image (" +:+
            pretty (Z.of_nat (length img_bytes)) +:+ " bytes)...";
          match result !! "steps" with
          | Some _ => "[Pipeline] ✅ Generated 10 steps"
          | None => "[Pipeline] ❌ Failed to decode image"
          end;
          "[" +:+ command self +:+ "] " +:+ requestline self ].
Proof.
  intros Hpath Hlen Hread Hjson Hsub Hb64 Hrun.
  destruct (rfile_read_state n self) as (body' & rest & Hread' & _ & _).
  rewrite Hread in Hread'. injection Hread' as _ ->.
  unfold do_POST, mbind, M_bind, get_self.
  rewrite Hpath, String.eqb_refl. cbn [negb].
  rewrite Hlen, Hread. unfold lift. rewrite Hjson, Hsub, Hb64.
  unfold print at 1. unfold modify at 1. cbv beta iota. rewrite Hrun.
  destruct (run_pipeline_ok_shape _ _ Hrun) as [(steps & -> & Hten) | ->].
  - rewrite lookup_singleton_eq.
    rewrite bool_decide_eq_true_2 by eauto.
    unfold subscript. rewrite lookup_singleton_eq.
    cbn -[pretty String.append json_dumps length]. rewrite Hten.
    eexists. split; [reflexivity |].
    cbn -[pretty String.append json_dumps].
    rewrite <- !app_assoc. reflexivity.
  - rewrite bool_decide_eq_false_2
      by (rewrite lookup_singleton_ne by done; apply is_Some_None).
    rewrite lookup_singleton_eq, lookup_singleton_ne by done.
    cbn -[pretty String.append json_dumps].
    eexists. split; [reflexivity |].
    cbn -[pretty String.append json_dumps].
    rewrite <- !app_assoc. reflexivity.
Qed.
End HandlerFacts.

Lemma do_POST_body_shape_errors_witness :
  (path empty_object_request = "/process"
   ∧ @json_loads tiny_py (list_byte_of_string "{}") = Ok (VDict ∅))
  ∧ @do_POST raw_cv tiny_py empty_object_request
    = (Raise (KeyError "image"), set_rfile [] empty_object_request).
Proof.
  split; [by split |].
  exact (do_POST_body_shape_errors (cv:=raw_cv) (py:=tiny_py)
           empty_object_request (set_rfile [] empty_object_request) 2
           (list_byte_of_string "{}") (VDict ∅)
           eq_refl eq_refl eq_refl eq_refl).
Defined.

Lemma do_POST_ignores_trailing_bytes_witness :
  (@content_length tiny_py white_pixel_request
   = (Ok 21%Z, white_pixel_request)
   ∧ (0 ≤ 21 ≤ Z.of_nat (length (rfile white_pixel_request)))%Z)
  ∧ (@do_POST raw_cv tiny_py white_pixel_request).1
    = (@do_POST raw_cv tiny_py
         (set_rfile (rfile white_pixel_request ++ [x47; x45; x54])
            white_pixel_request)).1.
Proof.
  assert (@content_length tiny_py white_pixel_request
          = (Ok 21%Z, white_pixel_request)) as Hlen
    by (vm_compute; reflexivity).
  assert (0 ≤ 21 ≤ Z.of_nat (length (rfile white_pixel_request)))%Z as Hn
    by (vm_compute; split; discriminate).
  split; [by split |].
  exact (proj1 (do_POST_ignores_trailing_bytes (cv:=raw_cv) (py:=tiny_py)
                  white_pixel_request 21 [x47; x45; x54] Hlen Hn)).
Defined.

Lemma do_POST_log_lines_witness :
  (path white_pixel_request = "/process"
   ∧ @json_loads tiny_py white_pixel_body
     = Ok (VDict {[ "image" := VStr (b64encode white_pixel) ]})
   ∧ @b64decode tiny_py (b64encode white_pixel) = Ok white_pixel)
  ∧ ∃ self',
      @do_POST raw_cv tiny_py white_pixel_request = (Ok (), self')
      ∧ stdout self'
        = [ "[Pipeline] Processing image (5 bytes)...";
            "[Pipeline] ✅ Generated 10 steps";
            "[POST] POST /process HTTP/1.1" ].
Proof.
  assert (@json_loads tiny_py white_pixel_body
          = Ok (VDict {[ "image" := VStr (b64encode white_pixel) ]}))
    as Hjson by (vm_compute; reflexivity).
  assert (@b64decode tiny_py (b64encode white_pixel) = Ok white_pixel)
    as Hb64 by (vm_compute; reflexivity).
  split; [repeat split; assumption |].
  pose proof (run_pipeline_steps (cv:=raw_cv) white_pixel _ eq_refl) as Hres.
  cbv zeta in Hres.
  assert (@content_length tiny_py white_pixel_request
          = (Ok (Z.of_nat (length white_pixel_body)), white_pixel_request))
    as Hlen by (vm_compute; reflexivity).
  assert (rfile_read (Z.of_nat (length white_pixel_body)) white_pixel_request
          = (Ok white_pixel_body, set_rfile [] white_pixel_request))
    as Hread by (vm_compute; reflexivity).
  destruct (do_POST_log_lines (cv:=raw_cv) (py:=tiny_py)
              white_pixel_request (set_rfile [] white_pixel_request)
              (Z.of_nat (length white_pixel_body)) white_pixel_body
              (VDict {[ "image" := VStr (b64encode white_pixel) ]})
              (VStr (b64encode white_pixel)) white_pixel _
              eq_refl Hlen Hread Hjson eq_refl Hb64 Hres)
    as (self' & Hrun & Hout).
  exists self'. split; [exact Hrun | exact Hout].
Defined.
